(** * Azure AI Search document loaders: a shallow embedding

    The repository holds two scripts, [load_products.py] and
    [load_reports.py].  Both read records, build one index document per
    record, ask an embedding endpoint for a vector (retrying, with
    exponential backoff, on an error whose text holds [429]) and upload the
    documents to a search index in batches.

    The scripts are modelled as functions in a state-and-exception monad over
    a trace of the external calls they make.  Remote services (the embedding
    endpoint, the search index, the blob store), the identifier generator and
    the library parsers that are not re-implemented here are fields of an
    environment [Env]; every theorem holds for every environment.  Console
    output ([print]) is not part of the trace; what a [print] computes is
    modelled where it can fail ([len(docs)], the f-string of an [int]).
    Library calls follow CPython 3.11 with its default settings. *)

From Stdlib Require Import ZArith String Ascii List Lia.
From Stdlib Require Import Floats.SpecFloat.
From stdpp Require Import gmap strings list pretty relations.

Set Warnings "-register-all".
Open Scope string_scope.
Open Scope list_scope.

(** ** Python values *)

(** Keys of a dictionary: a [str], or [None] (the [restkey] of
    [csv.DictReader]). *)
Abbreviation PyKey := (option string).
Abbreviation KStr s := (Some s) (only parsing).
Abbreviation KNone := (@None string) (only parsing).

(** The values the scripts handle: what [csv.DictReader] and [json.loads]
    produce, and the vectors of the embedding endpoint.  A [str] is kept as
    the bytes of its UTF-8 encoding; the scripts only concatenate strings,
    test a suffix and search a substring, which read the same on bytes. *)
Inductive PyVal : Type :=
| PNone
| PBool (b : bool)
| PInt (z : Z)
| PFloat (f : spec_float)
| PStr (s : string)
| PList (l : list PyVal)
| PDict (d : gmap PyKey PyVal).

(** A dictionary with string keys and arbitrary values: a raw record, or an
    index document. *)
Abbreviation PyDict := (gmap PyKey PyVal).
Abbreviation Doc := (gmap PyKey PyVal).

(** [bool(v)]: the truth value Python's [or] tests. *)
Definition py_truthy (v : PyVal) : bool :=
  match v with
  | PNone => false
  | PBool b => b
  | PInt z => negb (z =? 0)%Z
  | PFloat (S754_zero _) => false
  | PFloat _ => true
  | PStr s => negb (s =? "")
  | PList l => match l with [] => false | _ => true end
  | PDict d => negb (bool_decide (d = ∅))
  end.

(** [a or b]. *)
Definition py_or (a b : PyVal) : PyVal := if py_truthy a then a else b.

(** [d.get(key, default)]. *)
Definition dict_get (d : PyDict) (key : string) (default : PyVal) : PyVal :=
  match d !! KStr key with
  | Some v => v
  | None => default
  end.

(** [type(v).__name__]. *)
Definition py_type_name (v : PyVal) : string :=
  match v with
  | PNone => "NoneType"
  | PBool _ => "bool"
  | PInt _ => "int"
  | PFloat _ => "float"
  | PStr _ => "str"
  | PList _ => "list"
  | PDict _ => "dict"
  end.

(** ** Strings *)

(** [s.endswith(suffix)]. *)
Definition endswith (s suffix : string) : bool :=
  (String.length suffix <=? String.length s)%nat
  && (substring (String.length s - String.length suffix) (String.length suffix) s =? suffix).

(** [pat in s] for strings: [pat] occurs in [s] at some position. *)
Fixpoint str_contains (pat s : string) : bool :=
  String.prefix pat s
  || match s with
     | EmptyString => false
     | String _ s' => str_contains pat s'
     end.

(** ** Exceptions *)

Inductive ExnClass : Type :=
| ValueError
| UnicodeDecodeError
| JSONDecodeError
| CsvError
| TypeError
| AttributeError
| IndexError
| KeyError
| RuntimeError
| OverflowError
| ServiceError (name : string).   (* an exception class of a client library *)

(** An exception: its class and [str(e)]. *)
Record Exn : Type := MkExn { exn_class : ExnClass; exn_str : string }.

(** The error of [raise ValueError(f"Unsupported file format: {blob_name}")]. *)
Definition UnsupportedFormat (blob_name : string) : Exn :=
  MkExn ValueError ("Unsupported file format: " +:+ blob_name).

(** The error of [raise RuntimeError("Failed after retries")]. *)
Definition ExhaustedRetries : Exn := MkExn RuntimeError "Failed after retries".

(** The test of the [except] branch: ["429" in str(e)].  It reads the text
    of the error only, not its class nor an HTTP status. *)
Definition is_rate_limit (e : Exn) : bool := str_contains "429" (exn_str e).



Inductive PyResult (A : Type) : Type :=
| Ok (a : A)
| Raise (e : Exn).
Arguments Ok {A} a.
Arguments Raise {A} e.

(** [str(z)] and [f"{z}"] of an [int]: CPython (3.11, [sys.int_info]) refuses
    to write an integer of more than 4300 digits in base ten. *)
Definition int_max_str_digits : Z := 4300.

(** The least integer that is not written: [10^4300], of 4301 digits. *)
Definition int_str_limit : Z := 10 ^ int_max_str_digits.
Arguments int_str_limit : simpl never.

Definition int_str (z : Z) : PyResult string :=
  if (Z.abs z <? int_str_limit)%Z then Ok (pretty z)
  else Raise (MkExn ValueError
                "Exceeds the limit (4300 digits) for integer string conversion; use sys.set_int_max_str_digits() to increase the limit").

(** ** The trace of external calls *)

(** The two places that call [time.sleep]. *)
Inductive SleepSite : Type :=
| Backoff       (* get_embedding, after a failure that is retried *)
| BatchPause.   (* process_and_upload, after a full batch was uploaded *)

Inductive Event : Type :=
| EvDownload (container blob : string)     (* blob_client.download_blob() *)
| EvLoadPdf (url : string)                 (* PyPDFLoader(url).load() *)
| EvUuid (id : string)                     (* str(uuid.uuid4()) *)
| EvEmbed (model : string) (text : PyVal)  (* openai_client.embeddings.create *)
| EvSleep (site : SleepSite) (secs : Z)    (* time.sleep(secs) *)
| EvUpload (documents : list Doc).         (* search_client.upload_documents *)

(** The state of a run: the external calls made so far, oldest first. *)
Abbreviation World := (list Event).

Definition is_embed (e : Event) : bool :=
  match e with EvEmbed _ _ => true | _ => false end.
Definition is_uuid (e : Event) : bool :=
  match e with EvUuid _ => true | _ => false end.
Definition is_upload (e : Event) : bool :=
  match e with EvUpload _ => true | _ => false end.

(** How many calls of each kind a trace holds. *)
Definition embed_calls (w : World) : nat := length (List.filter is_embed w).
Definition uuid_calls (w : World) : nat := length (List.filter is_uuid w).
Definition upload_calls (w : World) : nat := length (List.filter is_upload w).

(** The durations slept at a site, in order. *)
Fixpoint sleeps (site : SleepSite) (w : World) : list Z :=
  match w with
  | [] => []
  | EvSleep Backoff secs :: w' =>
      match site with Backoff => secs :: sleeps site w' | BatchPause => sleeps site w' end
  | EvSleep BatchPause secs :: w' =>
      match site with BatchPause => secs :: sleeps site w' | Backoff => sleeps site w' end
  | _ :: w' => sleeps site w'
  end.

(** The document lists of the upload calls, in order. *)
Fixpoint uploads (w : World) : list (list Doc) :=
  match w with
  | [] => []
  | EvUpload documents :: w' => documents :: uploads w'
  | _ :: w' => uploads w'
  end.

(** ** The environment *)

(** What [openai_client.embeddings.create] does: it returns a response whose
    [data] is a list of embeddings, or raises. *)
Inductive Response : Type :=
| RespOk (data : list PyVal)
| RespRaise (e : Exn).

(** A PDF chunk of [load_reports.py]: a langchain [Document]. *)
Record LcDocument : Type := MkLcDocument {
  metadata : gmap PyKey PyVal;
  page_content : string
}.

(** The collaborators of the scripts.  A service answers its [k]-th call
    (counted from 0) as a function of [k] and of the arguments. *)
Record Env : Type := MkEnv {
  AZURE_OPENAI_DEPLOYMENT : string;
  BLOB_CONNECTION_STRING : string;
  BLOB_CONTAINER : string;
  BLOB_FILE : string;
  embeddings_create : nat -> PyVal -> Response;
  uuid4 : nat -> string;
  upload_documents : nat -> list Doc -> option Exn;
  download_blob : string -> string -> string -> PyResult (list Byte.byte);
  (* [json.loads(text)]: the value parsed, or the error of the parser *)
  json_loads : string -> PyResult PyVal;
  (* [str(f)] of a float *)
  format_float : spec_float -> string;
  (* [str(v)] of a list or a dict: the text, or the error of an item that
     cannot be written *)
  format_object : PyVal -> PyResult string;
  (* [split_text_into_chunks(get_data_from_pdf(url), 400, 20)] *)
  pdf_chunks : string -> PyResult (list LcDocument)
}.

(** ** The monad: a trace threaded through, and exceptions *)

Definition M (A : Type) : Type := World -> PyResult A * World.

Definition ret {A} (a : A) : M A := fun w => (Ok a, w).

Definition bind {A B} (m : M A) (k : A -> M B) : M B :=
  fun w =>
    match m w with
    | (Ok a, w') => k a w'
    | (Raise e, w') => (Raise e, w')
    end.

Definition raise {A} (e : Exn) : M A := fun w => (Raise e, w).

(** [try: m  except Exception as e: handler e]. *)
Definition try_except {A} (m : M A) (handler : Exn -> M A) : M A :=
  fun w =>
    match m w with
    | (Ok a, w') => (Ok a, w')
    | (Raise e, w') => handler e w'
    end.

Definition emit (e : Event) : M unit := fun w => (Ok tt, w ++ [e]).

Definition lift {A} (r : PyResult A) : M A := fun w => (r, w).

Declare Scope py_scope.
Delimit Scope py_scope with py.
Notation "x <- m ;; k" := (bind m (fun x => k))
  (at level 100, m at next level, right associativity) : py_scope.
Notation "m ;;; k" := (bind m (fun _ => k))
  (at level 100, right associativity) : py_scope.
Open Scope py_scope.

(** The error of [time.sleep] on a duration that is too long. *)
Definition SleepOverflow : Exn :=
  MkExn OverflowError "timestamp too large to convert to C _PyTime_t".

(** [time.sleep(secs)] on an [int]: a negative duration is refused, and so is
    one whose nanoseconds do not fit the signed 64-bit integer of CPython's
    clock ([secs * 10^9 > 2^63 - 1], so from [9223372037] seconds on).  The
    scripts pass [1] and the powers of two: [2^33] is the last one slept,
    [2^34] the first one refused. *)
Definition sleep (site : SleepSite) (secs : Z) : M unit :=
  if (secs <? 0)%Z then
    raise (MkExn ValueError "sleep length must be non-negative")
  else if (2 ^ 63 - 1 <? secs * 10 ^ 9)%Z then
    raise SleepOverflow
  else emit (EvSleep site secs).

(** [range(n)]. *)
Definition range (n : Z) : list Z := Z.of_nat <$> seq 0 (Z.to_nat n).

(** ** Library functions *)

(** [bytes.decode('utf-8')]: the bytes must be well-formed UTF-8 (no overlong
    form, no surrogate, nothing above U+10FFFF).  As a [str] is kept as its
    UTF-8 bytes, decoding returns the bytes it has checked. *)
Definition in_range (lo hi b : N) : bool := ((lo <=? b) && (b <=? hi))%N.
Definition is_continuation (b : N) : bool := in_range 128 191 b.

Fixpoint utf8_valid (bs : list N) : bool :=
  match bs with
  | [] => true
  | b0 :: bs1 =>
      if (b0 <? 128)%N then utf8_valid bs1
      else if in_range 194 223 b0 then
        match bs1 with
        | b1 :: bs2 => is_continuation b1 && utf8_valid bs2
        | _ => false
        end
      else if in_range 224 239 b0 then
        match bs1 with
        | b1 :: b2 :: bs3 =>
            (if (b0 =? 224)%N then in_range 160 191 b1
             else if (b0 =? 237)%N then in_range 128 159 b1
             else is_continuation b1)
            && is_continuation b2 && utf8_valid bs3
        | _ => false
        end
      else if in_range 240 244 b0 then
        match bs1 with
        | b1 :: b2 :: b3 :: bs4 =>
            (if (b0 =? 240)%N then in_range 144 191 b1
             else if (b0 =? 244)%N then in_range 128 143 b1
             else is_continuation b1)
            && is_continuation b2 && is_continuation b3 && utf8_valid bs4
        | _ => false
        end
      else false
  end.

(** [str(e)] of a decoding error is cut after the codec's name. *)
Definition decode_utf8 (payload : list Byte.byte) : PyResult string :=
  if utf8_valid (Byte.to_N <$> payload)
  then Ok (string_of_list_byte payload)
  else Raise (MkExn UnicodeDecodeError "'utf-8' codec can't decode byte").

(** The characters of a [str]: each lead byte with its continuation bytes. *)
Fixpoint utf8_chars_from (cur : string) (s : string) : list string :=
  match s with
  | EmptyString => [cur]
  | String c s' =>
      if is_continuation (N_of_ascii c)
      then utf8_chars_from (cur +:+ String c EmptyString) s'
      else cur :: utf8_chars_from (String c EmptyString) s'
  end.

Definition utf8_chars (s : string) : list string :=
  match s with
  | EmptyString => []
  | String c s' => utf8_chars_from (String c EmptyString) s'
  end.

(** [len(v)]. *)
Definition py_len (v : PyVal) : PyResult nat :=
  match v with
  | PStr s => Ok (length (utf8_chars s))
  | PList l => Ok (length l)
  | PDict d => Ok (size d)
  | _ => Raise (MkExn TypeError ("object of type '" +:+ py_type_name v +:+ "' has no len()"))
  end.

(** [iter(v)], all its items: the elements of a list, the keys of a dict
    (in the order of the map: a [gmap] does not keep Python's insertion
    order), the characters of a str. *)
Definition py_key_val (k : PyKey) : PyVal :=
  match k with
  | Some s => PStr s
  | None => PNone
  end.

Definition py_iter (v : PyVal) : PyResult (list PyVal) :=
  match v with
  | PStr s => Ok (PStr <$> utf8_chars s)
  | PList l => Ok l
  | PDict d => Ok (py_key_val <$> (map_to_list d).*1)
  | _ => Raise (MkExn TypeError ("'" +:+ py_type_name v +:+ "' object is not iterable"))
  end.

(** *** csv.reader, excel dialect, [skipinitialspace=True]

    CPython's [_csv] reader as of 3.11: a comma delimiter, the double quote as
    quote character, doubled quotes, no escape character, not strict.  It reads the lines of
    an [io.StringIO], which end at ['\n'] and keep it. *)

Inductive ParserState : Type :=
| START_RECORD
| START_FIELD
| IN_FIELD
| IN_QUOTED_FIELD
| QUOTE_IN_QUOTED_FIELD
| EAT_CRNL.

Record Reader : Type := MkReader {
  fields : list string;     (* the fields of the record read so far *)
  field : string;           (* the field being read *)
  field_len : N;            (* its length in characters *)
  state : ParserState
}.

(** [parse_reset]. *)
Definition parse_reset : Reader := MkReader [] "" 0 START_RECORD.

Definition field_limit : N := 131072.

Definition LF : ascii := ascii_of_nat 10.
Definition CR : ascii := ascii_of_nat 13.
Definition QUOTE : ascii := ascii_of_nat 34.

(** [parse_save_field]. *)
Definition parse_save_field (r : Reader) : Reader :=
  MkReader (fields r ++ [field r]) "" 0 (state r).

(** [parse_add_char]; the limit counts characters, not bytes. *)
Definition parse_add_char (c : ascii) (r : Reader) : PyResult Reader :=
  if is_continuation (N_of_ascii c)
  then Ok (MkReader (fields r) (field r +:+ String c EmptyString) (field_len r) (state r))
  else if (field_limit <=? field_len r)%N
  then Raise (MkExn CsvError "field larger than field limit (131072)")
  else Ok (MkReader (fields r) (field r +:+ String c EmptyString) (N.succ (field_len r)) (state r)).

Definition set_state (s : ParserState) (r : Reader) : Reader :=
  MkReader (fields r) (field r) (field_len r) s.

Definition is_newline (c : ascii) : bool := Ascii.eqb c LF || Ascii.eqb c CR.

(** [parse_process_char]; [None] is the end-of-line mark the reader feeds
    after the last character of each line. *)
Definition start_field (c : option ascii) (r : Reader) : PyResult Reader :=
  match c with
  | None => Ok (set_state START_RECORD (parse_save_field r))
  | Some ch =>
      if is_newline ch then Ok (set_state EAT_CRNL (parse_save_field r))
      else if Ascii.eqb ch QUOTE then Ok (set_state IN_QUOTED_FIELD r)
      else if Ascii.eqb ch " " then Ok r
      else if Ascii.eqb ch "," then Ok (parse_save_field r)
      else
        match parse_add_char ch r with
        | Ok r' => Ok (set_state IN_FIELD r')
        | Raise e => Raise e
        end
  end.

Definition parse_process_char (c : option ascii) (r : Reader) : PyResult Reader :=
  match state r with
  | START_RECORD =>
      match c with
      | None => Ok r
      | Some ch =>
          if is_newline ch then Ok (set_state EAT_CRNL r)
          else start_field c (set_state START_FIELD r)
      end
  | START_FIELD => start_field c r
  | IN_FIELD =>
      match c with
      | None => Ok (set_state START_RECORD (parse_save_field r))
      | Some ch =>
          if is_newline ch then Ok (set_state EAT_CRNL (parse_save_field r))
          else if Ascii.eqb ch "," then Ok (set_state START_FIELD (parse_save_field r))
          else parse_add_char ch r
      end
  | IN_QUOTED_FIELD =>
      match c with
      | None => Ok r
      | Some ch =>
          if Ascii.eqb ch QUOTE then Ok (set_state QUOTE_IN_QUOTED_FIELD r)
          else parse_add_char ch r
      end
  | QUOTE_IN_QUOTED_FIELD =>
      match c with
      | None => Ok (set_state START_RECORD (parse_save_field r))
      | Some ch =>
          if Ascii.eqb ch QUOTE then
            match parse_add_char ch r with
            | Ok r' => Ok (set_state IN_QUOTED_FIELD r')
            | Raise e => Raise e
            end
          else if Ascii.eqb ch "," then Ok (set_state START_FIELD (parse_save_field r))
          else if is_newline ch then Ok (set_state EAT_CRNL (parse_save_field r))
          else
            match parse_add_char ch r with
            | Ok r' => Ok (set_state IN_FIELD r')
            | Raise e => Raise e
            end
      end
  | EAT_CRNL =>
      match c with
      | None => Ok (set_state START_RECORD r)
      | Some ch =>
          if is_newline ch then Ok r
          else Raise (MkExn CsvError
                 "new-line character seen in unquoted field - do you need to open the file in universal-newline mode?")
      end
  end.

(** The lines of a [StringIO]: each ends after its ['\n']. *)
Fixpoint lines_from (cur : string) (s : string) : list string :=
  match s with
  | EmptyString => match cur with EmptyString => [] | _ => [cur] end
  | String c s' =>
      if Ascii.eqb c LF
      then (cur +:+ String c EmptyString) :: lines_from "" s'
      else lines_from (cur +:+ String c EmptyString) s'
  end.

Definition readlines (s : string) : list string := lines_from "" s.

(** The characters of one line, then the end-of-line mark. *)
Fixpoint parse_line (line : string) (r : Reader) : PyResult Reader :=
  match line with
  | EmptyString => parse_process_char None r
  | String c line' =>
      match parse_process_char (Some c) r with
      | Ok r' => parse_line line' r'
      | Raise e => Raise e
      end
  end.

(** All the records [Reader_iternext] returns, one after the other: a record
    ends with the line that leaves the parser in [START_RECORD]; at the end of
    the input a record still open is closed. *)
Fixpoint reader_records (lines : list string) (r : Reader) : PyResult (list (list string)) :=
  match lines with
  | [] =>
      if negb (field_len r =? 0)%N
         || match state r with IN_QUOTED_FIELD => true | _ => false end
      then Ok [fields (parse_save_field r)]
      else Ok []
  | line :: rest =>
      match parse_line line r with
      | Raise e => Raise e
      | Ok r' =>
          match state r' with
          | START_RECORD =>
              match reader_records rest parse_reset with
              | Ok records => Ok (fields r' :: records)
              | Raise e => Raise e
              end
          | _ => reader_records rest r'
          end
      end
  end.

Definition csv_reader (text : string) : PyResult (list (list string)) :=
  reader_records (readlines text) parse_reset.

(** *** csv.DictReader *)

(** The dict of one row: [dict(zip(fieldnames, row))], the extra values under
    the key [None], the missing ones set to [None]. *)
Definition row_dict (fieldnames row : list string) : PyDict :=
  let d := foldl (fun d kv => <[KStr (fst kv) := PStr (snd kv)]> d) ∅ (zip fieldnames row) in
  let lf := length fieldnames in
  let lr := length row in
  if (lf <? lr)%nat then <[KNone := PList (PStr <$> drop lf row)]> d
  else if (lr <? lf)%nat then foldl (fun d key => <[KStr key := PNone]> d) d (drop lr fieldnames)
  else d.

Definition is_blank_row (row : list string) : bool :=
  match row with [] => true | _ => false end.

(** The rows a [DictReader] yields: the first record names the fields, and
    the records that are [[]] (blank lines) are passed over. *)
Definition data_rows (records : list (list string)) : list (list string) :=
  List.filter (fun row => negb (is_blank_row row)) (tail records).

Definition dict_reader (records : list (list string)) : list PyDict :=
  match records with
  | [] => []
  | fieldnames :: _ => row_dict fieldnames <$> data_rows records
  end.

Section Model.
Variable env : Env.

(** ** load_docs_from_blob (load_products.py 48-84) *)

(** Lines 49-61: the clients and the download; they fail or give the bytes. *)
Definition download (blob_connection_string container_name blob_name : string)
  : M (list Byte.byte) :=
  emit (EvDownload container_name blob_name) ;;;
  lift (download_blob env blob_connection_string container_name blob_name).

Definition load_docs_from_blob (blob_connection_string container_name blob_name : string)
  : M PyVal :=
  payload <- download blob_connection_string container_name blob_name ;;
  blob_content <- lift (decode_utf8 payload) ;;
  docs <- (if endswith blob_name ".csv" then
             records <- lift (csv_reader blob_content) ;;
             ret (PList (PDict <$> dict_reader records))
           else if endswith blob_name ".json" then
             lift (json_loads env blob_content)
           else
             raise (UnsupportedFormat blob_name)) ;;
  _ <- lift (py_len docs) ;;     (* the [len(docs)] of the print *)
  ret docs.

(** ** transform_doc (load_products.py 92-114) *)

(** [str(uuid.uuid4())]. *)
Definition new_uuid : M string :=
  fun w => let id := uuid4 env (uuid_calls w) in (Ok id, w ++ [EvUuid id]).

(** [f"{v}"]: the text of [v], or the error of writing it. *)
Definition py_format (v : PyVal) : PyResult string :=
  match v with
  | PNone => Ok "None"
  | PBool true => Ok "True"
  | PBool false => Ok "False"
  | PInt z => int_str z
  | PFloat f => Ok (format_float env f)
  | PStr s => Ok s
  | PList _ | PDict _ => format_object env v
  end.

(** [raw_doc.get]: only a dict has the method. *)
Definition get_method (raw_doc : PyVal) : M PyDict :=
  match raw_doc with
  | PDict d => ret d
  | _ => raise (MkExn AttributeError
                  ("'" +:+ py_type_name raw_doc +:+ "' object has no attribute 'get'"))
  end.

Definition transform_doc (raw_doc : PyVal) : M Doc :=
  chunk_id <- new_uuid ;;
  d <- get_method raw_doc ;;
  let parent_id := py_or (dict_get d "parent_id" (PStr "")) (PStr "") in
  let title := dict_get d "name" (PStr "") in
  let main_category := dict_get d "main_category" (PStr "") in
  let sub_category := dict_get d "sub_category" (PStr "") in
  title_text <- lift (py_format title) ;;
  let chunk := title_text +:+ ". " in
  ret (<[KStr "chunk_id" := PStr chunk_id]>
       (<[KStr "parent_id" := parent_id]>
        (<[KStr "main_category" := main_category]>
         (<[KStr "sub_category" := sub_category]>
          (<[KStr "chunk" := PStr chunk]> ∅))))).

(** ** get_embedding (load_products.py 119-134, load_reports.py 75-90)

    The two scripts hold the same text for this function. *)

(** [openai_client.embeddings.create(model=AZURE_OPENAI_DEPLOYMENT, input=text)]. *)
Definition create_embedding (text : PyVal) : M (list PyVal) :=
  fun w =>
    let w' := w ++ [EvEmbed (AZURE_OPENAI_DEPLOYMENT env) text] in
    match embeddings_create env (embed_calls w) text with
    | RespOk data => (Ok data, w')
    | RespRaise e => (Raise e, w')
    end.

(** [response.data[0].embedding]. *)
Definition first_embedding (data : list PyVal) : M PyVal :=
  match data with
  | v :: _ => ret v
  | [] => raise (MkExn IndexError "list index out of range")
  end.

(** The [for attempt in ...] loop, and the [raise] that follows it. *)
Fixpoint get_embedding_attempts (text : PyVal) (attempts : list Z) : M PyVal :=
  match attempts with
  | [] => raise ExhaustedRetries
  | attempt :: rest =>
      try_except
        (data <- create_embedding text ;; first_embedding data)
        (fun e =>
           if is_rate_limit e
           then (let wait_time := (2 ^ attempt)%Z in
                 _ <- lift (int_str wait_time) ;;     (* the f-string of the print *)
                 sleep Backoff wait_time ;;;
                 get_embedding_attempts text rest)
           else raise e)
  end.

Definition get_embedding (text : PyVal) (max_retries : Z) : M PyVal :=
  get_embedding_attempts text (range max_retries).

(** ** process_and_upload (load_products.py 139-168) *)

(** [search_client.upload_documents(documents=batch)]. *)
Definition upload (documents : list Doc) : M unit :=
  fun w =>
    let w' := w ++ [EvUpload documents] in
    match upload_documents env (upload_calls w) documents with
    | None => (Ok tt, w')
    | Some e => (Raise e, w')
    end.

(** [doc[key]]. *)
Definition subscript (doc : Doc) (key : string) : M PyVal :=
  match doc !! KStr key with
  | Some v => ret v
  | None => raise (MkExn KeyError ("'" +:+ key +:+ "'"))
  end.

(** Lines 145-154: one record becomes a document with its vector, at the
    end of the batch. *)
Definition embed_record (raw_doc : PyVal) : M Doc :=
  doc <- transform_doc raw_doc ;;
  chunk <- subscript doc "chunk" ;;
  embedding <- get_embedding chunk 5 ;;
  ret (<[KStr "text_vector" := embedding]> doc).

Definition append_record (raw_doc : PyVal) (batch : list Doc) : M (list Doc) :=
  doc <- embed_record raw_doc ;;
  ret (batch ++ [doc]).

(** Lines 157-163: a batch that has reached the threshold is uploaded and a
    new one is started. *)
Definition flush_if_full (batch_size : Z) (batch : list Doc) : M (list Doc) :=
  if (batch_size <=? Z.of_nat (length batch))%Z then
    upload batch ;;;
    sleep BatchPause 1 ;;;
    ret []
  else ret batch.

(** Lines 166-168: what is left is uploaded, unless nothing is. *)
Definition upload_leftover (batch : list Doc) : M unit :=
  match batch with
  | [] => ret tt
  | _ => upload batch
  end.

(** The [for] loop over the records, then the leftover. *)
Fixpoint process_records (batch_size : Z) (raw_docs : list PyVal) (batch : list Doc) : M unit :=
  match raw_docs with
  | [] => upload_leftover batch
  | raw_doc :: rest =>
      batch <- append_record raw_doc batch ;;
      batch <- flush_if_full batch_size batch ;;
      process_records batch_size rest batch
  end.

Definition process_and_upload (batch_size : Z) : M unit :=
  raw_docs <- load_docs_from_blob (BLOB_CONNECTION_STRING env) (BLOB_CONTAINER env) (BLOB_FILE env) ;;
  items <- lift (py_iter raw_docs) ;;
  process_records batch_size items [].

(** *** The driver, step by step

    The same loop as a machine over the program points where [batch] can be
    observed: before a record is taken (line 143), after [batch.append]
    (line 154, before the test of line 157), and after the loop (line 166). *)

Inductive Driver : Type :=
| AtRecord (rest : list PyVal) (batch : list Doc)
| AtCheck (rest : list PyVal) (batch : list Doc)
| AtLeftover (batch : list Doc)
| Halted (r : PyResult unit).

Definition driver_step (batch_size : Z) (c : Driver * World) : Driver * World :=
  let (st, w) := c in
  match st with
  | AtRecord [] batch => (AtLeftover batch, w)
  | AtRecord (raw_doc :: rest) batch =>
      match append_record raw_doc batch w with
      | (Ok batch', w') => (AtCheck rest batch', w')
      | (Raise e, w') => (Halted (Raise e), w')
      end
  | AtCheck rest batch =>
      match flush_if_full batch_size batch w with
      | (Ok batch', w') => (AtRecord rest batch', w')
      | (Raise e, w') => (Halted (Raise e), w')
      end
  | AtLeftover batch =>
      let (r, w') := upload_leftover batch w in (Halted r, w')
  | Halted r => (Halted r, w)
  end.

End Model.

(** ** load_reports.py *)

Module Reports.
Section Model.
Variable env : Env.

(** The address of the report, fixed in the script. *)
Definition REPORT_URL : string :=
  "https://www.jpmorganchase.com/content/dam/jpmc/jpmorgan-chase-and-co/investor-relations/documents/annualreport-2024.pdf".

(** transform_doc (load_reports.py 55-70); the script never calls it. *)
Definition transform_doc (raw_doc : PyVal) : M Doc :=
  chunk_id <- new_uuid env ;;
  d <- get_method raw_doc ;;
  let parent_id := py_or (dict_get d "parent_id" (PStr "")) (PStr "") in
  let title := dict_get d "name" (PStr "") in
  title_text <- lift (py_format env title) ;;
  let chunk := title_text +:+ ". " in
  ret (<[KStr "chunk_id" := PStr chunk_id]>
       (<[KStr "parent_id" := parent_id]>
        (<[KStr "chunk" := PStr chunk]> ∅))).

(** Lines 96-100: the pages of the PDF, split into chunks. *)
Definition load_chunks : M (list LcDocument) :=
  emit (EvLoadPdf REPORT_URL) ;;;
  lift (pdf_chunks env REPORT_URL).

(** Lines 104-114: the document of one chunk. *)
Definition chunk_doc (raw_doc : LcDocument) : M Doc :=
  chunk_id <- new_uuid env ;;
  title <- subscript (metadata raw_doc) "source" ;;
  embedding <- get_embedding env (PStr (page_content raw_doc)) 5 ;;
  ret (<[KStr "chunk_id" := PStr chunk_id]>
       (<[KStr "parent_id" := PStr ""]>
        (<[KStr "title" := title]>
         (<[KStr "chunk" := PStr (page_content raw_doc)]>
          (<[KStr "text_vector" := embedding]> ∅))))).

Definition append_chunk (raw_doc : LcDocument) (batch : list Doc) : M (list Doc) :=
  doc <- chunk_doc raw_doc ;;
  ret (batch ++ [doc]).

(** The [for] loop (lines 102-125), then the leftover (lines 128-130); the
    flush and the leftover are those of [load_products.py], word for word. *)
Fixpoint process_chunks (batch_size : Z) (documents : list LcDocument) (batch : list Doc)
  : M unit :=
  match documents with
  | [] => upload_leftover env batch
  | raw_doc :: rest =>
      batch <- append_chunk raw_doc batch ;;
      batch <- flush_if_full env batch_size batch ;;
      process_chunks batch_size rest batch
  end.

(** process_and_upload (load_reports.py 95-130). *)
Definition process_and_upload (batch_size : Z) : M unit :=
  documents <- load_chunks ;;
  process_chunks batch_size documents [].

End Model.
End Reports.

(** ** Vocabulary of the statements *)

Section Vocabulary.
Variable env : Env.

(** The [k]-th call of the endpoint, on [text], fails with an error that the
    [except] branch retries: one whose text holds [429]. *)
Definition fails_with_429_text (text : PyVal) (k : nat) : Prop :=
  exists e, embeddings_create env k text = RespRaise e /\ is_rate_limit e = true.

(** The calls a run of [n] retried attempts makes, from attempt [a] on: each
    endpoint call is followed by its backoff sleep. *)
Definition backoff_events (text : PyVal) (a n : nat) : World :=
  flat_map
    (fun k => [EvEmbed (AZURE_OPENAI_DEPLOYMENT env) text; EvSleep Backoff (2 ^ Z.of_nat k)])
    (seq a n).

(** The events of the work on one record; the others are those of a flush
    (the upload and the pause after it). *)
Definition is_record_event (e : Event) : bool :=
  match e with
  | EvUpload _ => false
  | EvSleep BatchPause _ => false
  | _ => true
  end.

Definition record_events (w : World) : World := List.filter is_record_event w.

(** A computation that makes no flush and does not depend on the flushes made
    before it: it only adds record events, and it does the same on the trace
    without its flush events. *)
Definition quiet {A} (m : M A) : Prop :=
  forall w, exists tr,
    snd (m w) = w ++ tr
    /\ Forall (fun e => is_record_event e = true) tr
    /\ m (record_events w) = (fst (m w), record_events w ++ tr).

(** The records one after the other, each finished before the next starts. *)
Fixpoint run_all {R} (produce : R -> M Doc) (items : list R) : M (list Doc) :=
  match items with
  | [] => ret []
  | r :: rest =>
      doc <- produce r ;;
      docs <- run_all produce rest ;;
      ret (doc :: docs)
  end.

(** The loop the two scripts share: a document per record, by [produce]. *)
Fixpoint batch_loop {R} (produce : R -> M Doc) (batch_size : Z)
    (items : list R) (batch : list Doc) : M unit :=
  match items with
  | [] => upload_leftover env batch
  | r :: rest =>
      doc <- produce r ;;
      batch <- flush_if_full env batch_size (batch ++ [doc]) ;;
      batch_loop produce batch_size rest batch
  end.

(** The sizes of the uploads of [t] documents in batches of [b]. *)
Definition batch_sizes (b t : nat) : list nat :=
  replicate (t / b) b ++ (if (t mod b =? 0)%nat then [] else [t mod b]).

(** The events of a flush: an upload, and the pause after it. *)
Definition flush_events (tr : World) : Prop :=
  Forall (fun e => is_record_event e = false) tr.

(** The documents made one after the other on the trace of the run itself:
    [produce] takes the first item at [w] and returns its document at [w1];
    a flush, if there is one, follows; the next item is taken there. *)
Inductive produced {R} (produce : R -> M Doc)
  : World -> list R -> list Doc -> World -> Prop :=
| produced_nil w : produced produce w [] [] w
| produced_cons w r rest doc w1 fl docs w2 :
    produce r w = (Ok doc, w1) ->
    flush_events fl ->
    produced produce (w1 ++ fl) rest docs w2 ->
    produced produce w (r :: rest) (doc :: docs) w2.

(** The work on the records as the specification tells it, on the trace of
    the run itself: at [w] the record is transformed, [transform_doc] returns
    [doc] at [w1]; its chunk is embedded, [get_embedding] returns
    [embedding] at [w2]; a flush, if there is one, follows; only then is the
    next record taken.  A step keeps the document [transform_doc] returned
    and the vector [get_embedding] returned. *)
Inductive record_steps
  : World -> list PyVal -> list (Doc * PyVal) -> World -> Prop :=
| record_steps_nil w : record_steps w [] [] w
| record_steps_cons w raw_doc rest doc chunk embedding w1 w2 fl steps w3 :
    transform_doc env raw_doc w = (Ok doc, w1) ->
    doc !! KStr "chunk" = Some chunk ->
    get_embedding env chunk 5 w1 = (Ok embedding, w2) ->
    flush_events fl ->
    record_steps (w2 ++ fl) rest steps w3 ->
    record_steps w (raw_doc :: rest) ((doc, embedding) :: steps) w3.

(** The document of a step with its vector attached. *)
Definition attach (step : Doc * PyVal) : Doc :=
  <[KStr "text_vector" := snd step]> (fst step).

(** [doc'] is the document of the step, changed under ["text_vector"] only,
    where it holds the vector of the step. *)
Definition vector_attached (step : Doc * PyVal) (doc' : Doc) : Prop :=
  doc' !! KStr "text_vector" = Some (snd step)
  /\ forall k, k <> KStr "text_vector" -> doc' !! k = fst step !! k.

(** The batch a state of the driver holds. *)
Definition batch_of (st : Driver) : list Doc :=
  match st with
  | AtRecord _ batch | AtCheck _ batch | AtLeftover batch => batch
  | Halted _ => []
  end.

Definition at_record (st : Driver) : bool :=
  match st with AtRecord _ _ => true | _ => false end.

End Vocabulary.

(** What the driver keeps true of [batch]. *)
Definition driver_inv (batch_size : Z) (st : Driver) : Prop :=
  (Z.of_nat (length (batch_of st)) <= batch_size)%Z
  /\ (at_record st = true -> (Z.of_nat (length (batch_of st)) < batch_size)%Z).

(** The same environment with another identifier generator. *)
Definition with_uuid4 (g : nat -> string) (env : Env) : Env :=
  {| AZURE_OPENAI_DEPLOYMENT := AZURE_OPENAI_DEPLOYMENT env;
     BLOB_CONNECTION_STRING := BLOB_CONNECTION_STRING env;
     BLOB_CONTAINER := BLOB_CONTAINER env;
     BLOB_FILE := BLOB_FILE env;
     embeddings_create := embeddings_create env;
     uuid4 := g;
     upload_documents := upload_documents env;
     download_blob := download_blob env;
     json_loads := json_loads env;
     format_float := format_float env;
     format_object := format_object env;
     pdf_chunks := pdf_chunks env |}.

(** A result of [transform_doc] with the identifier set aside. *)
Definition without_chunk_id (r : PyResult Doc) : PyResult Doc :=
  match r with
  | Ok doc => Ok (delete (KStr "chunk_id") doc)
  | Raise e => Raise e
  end.

(** ** Mock environments, for the closed examples *)

Definition rate_limit_error : Exn :=
  MkExn (ServiceError "RateLimitError") "Error code: 429 - Requests have exceeded the rate limit".


Definition sample_vector : PyVal :=
  PList [PFloat (S754_finite false 1 (-3)); PFloat (S754_zero false)].

(** An endpoint that answers HTTP 429 to its first [n] calls and then returns
    one embedding. *)
Definition flaky_endpoint (n : nat) (k : nat) (text : PyVal) : Response :=
  if (k <? n)%nat then RespRaise rate_limit_error else RespOk [sample_vector].

(** An environment with the given endpoint, blob name and blob bytes; the
    index accepts every upload. *)
Definition mock_env (endpoint : nat -> PyVal -> Response)
    (blob_file : string) (payload : list Byte.byte) : Env :=
  {| AZURE_OPENAI_DEPLOYMENT := "text-embedding-3-small";
     BLOB_CONNECTION_STRING := "UseDevelopmentStorage=true";
     BLOB_CONTAINER := "products";
     BLOB_FILE := blob_file;
     embeddings_create := endpoint;
     uuid4 := fun k => "uuid-" +:+ pretty k;
     upload_documents := fun _ _ => None;
     download_blob := fun _ _ _ => Ok payload;
     json_loads := fun _ => Raise (MkExn JSONDecodeError "Expecting value: line 1 column 1 (char 0)");
     format_float := fun _ => "0.0";
     format_object := fun _ => Ok "<object>";
     pdf_chunks := fun _ => Ok [] |}.

Definition retry_env (endpoint : nat -> PyVal -> Response) : Env :=
  mock_env endpoint "products.csv" [].

Definition nl : string := String LF EmptyString.

(** The three rows of the end-to-end example. *)
Definition three_rows_csv : string :=
  "name,parent_id" +:+ nl +:+ "A,p1" +:+ nl +:+ "B,p2" +:+ nl +:+ "C," +:+ nl.

(** Its endpoint rate-limits the first call, then answers. *)
Definition three_rows_env : Env :=
  mock_env (flaky_endpoint 1) "products.csv" (list_byte_of_string three_rows_csv).

(** A header and [n] rows. *)
Fixpoint csv_rows (n : nat) : string :=
  match n with
  | O => EmptyString
  | S n' => "A,p1" +:+ nl +:+ csv_rows n'
  end.

Definition many_rows_env (n : nat) : Env :=
  mock_env (flaky_endpoint 0) "products.csv"
    (list_byte_of_string ("name,parent_id" +:+ nl +:+ csv_rows n)).

Definition five_rows_env : Env := many_rows_env 5.

(** The items the blob of a mock environment loads to. *)
Definition loaded_items (env : Env) : list PyVal :=
  match fst (load_docs_from_blob env (BLOB_CONNECTION_STRING env) (BLOB_CONTAINER env)
               (BLOB_FILE env) []) with
  | Ok (PList items) => items
  | _ => []
  end.

(** A row shorter than the header: [DictReader] gives [None] to the field
    that is missing. *)
Definition short_row_csv : string := "name,parent_id" +:+ nl +:+ "A" +:+ nl.

Definition short_row : PyDict :=
  <[KStr "parent_id" := PNone]> (<[KStr "name" := PStr "A"]> ∅).

(** A [json.loads] that knows one text. *)
Definition one_array_json : string := "[{}, {}]".

Definition json_env : Env :=
  {| AZURE_OPENAI_DEPLOYMENT := "text-embedding-3-small";
     BLOB_CONNECTION_STRING := "UseDevelopmentStorage=true";
     BLOB_CONTAINER := "products";
     BLOB_FILE := "products.json";
     embeddings_create := flaky_endpoint 0;
     uuid4 := fun k => "uuid-" +:+ pretty k;
     upload_documents := fun _ _ => None;
     download_blob := fun _ _ _ => Ok (list_byte_of_string one_array_json);
     json_loads := fun text =>
       if (text =? one_array_json)%string then Ok (PList [PDict ∅; PDict ∅])
       else Raise (MkExn JSONDecodeError "Expecting value: line 1 column 1 (char 0)");
     format_float := fun _ => "0.0";
     format_object := fun _ => Ok "<object>";
     pdf_chunks := fun _ => Ok [] |}.

(** ** Vocabulary and mocks of the further properties *)

(** [isinstance(v, dict)]. *)
Definition is_dict (v : PyVal) : bool :=
  match v with PDict _ => true | _ => false end.

(** The sum of a list of durations. *)
Definition total (secs : list Z) : Z := foldr Z.add 0%Z secs.

(** An endpoint whose responses hold no embedding. *)
Definition empty_data_endpoint (k : nat) (text : PyVal) : Response := RespOk [].

(** A [json.loads] that knows the text [5]. *)
Definition json_number_env : Env :=
  {| AZURE_OPENAI_DEPLOYMENT := "text-embedding-3-small";
     BLOB_CONNECTION_STRING := "UseDevelopmentStorage=true";
     BLOB_CONTAINER := "products";
     BLOB_FILE := "products.json";
     embeddings_create := flaky_endpoint 0;
     uuid4 := fun k => "uuid-" +:+ pretty k;
     upload_documents := fun _ _ => None;
     download_blob := fun _ _ _ => Ok (list_byte_of_string "5");
     json_loads := fun text =>
       if (text =? "5")%string then Ok (PInt 5)
       else Raise (MkExn JSONDecodeError "Expecting value: line 1 column 1 (char 0)");
     format_float := fun _ => "0.0";
     format_object := fun _ => Ok "<object>";
     pdf_chunks := fun _ => Ok [] |}.

(** Three chunks of the report, as the splitter gives them, behind an
    endpoint that rate-limits its first call. *)
Definition report_chunk (text : string) : LcDocument :=
  MkLcDocument (<[KStr "page" := PInt 0]> (<[KStr "source" := PStr Reports.REPORT_URL]> ∅)) text.

Definition three_chunks : list LcDocument :=
  [report_chunk "one"; report_chunk "two"; report_chunk "three"].

Definition reports_env : Env :=
  {| AZURE_OPENAI_DEPLOYMENT := "text-embedding-3-small";
     BLOB_CONNECTION_STRING := "UseDevelopmentStorage=true";
     BLOB_CONTAINER := "products";
     BLOB_FILE := "products.csv";
     embeddings_create := flaky_endpoint 1;
     uuid4 := fun k => "uuid-" +:+ pretty k;
     upload_documents := fun _ _ => None;
     download_blob := fun _ _ _ => Ok [];
     json_loads := fun _ => Raise (MkExn JSONDecodeError "Expecting value: line 1 column 1 (char 0)");
     format_float := fun _ => "0.0";
     format_object := fun _ => Ok "<object>";
     pdf_chunks := fun _ => Ok three_chunks |}.

(** Three records and a number. *)
Definition three_records_then_number : list PyVal :=
  [PDict short_row; PDict short_row; PDict short_row; PInt 7].

(** A chunk whose metadata names no source. *)
Definition chunk_without_source : LcDocument :=
  MkLcDocument (<[KStr "page" := PInt 0]> ∅) "one".

(** The document of a result, or the empty document. *)
Definition fst_doc (r : PyResult Doc * World) : Doc :=
  match fst r with
  | Ok doc => doc
  | Raise _ => ∅
  end.




(** A record whose name is the number [10^4300], of 4301 digits. *)
Definition huge_name_record : PyDict :=
  <[KStr "name" := PInt int_str_limit]> ∅.

(** The cells of a CSV row: strings, or [None] where the row is short. *)
Definition is_cell (v : PyVal) : Prop := (exists s, v = PStr s) \/ v = PNone.

Definition cells_only (d : PyDict) : Prop :=
  forall key v, d !! KStr key = Some v -> is_cell v.

(** A storage account where the blob does not exist. *)
Definition blob_not_found : Exn :=
  MkExn (ServiceError "ResourceNotFoundError") "The specified blob does not exist.".

Definition missing_blob_env : Env :=
  {| AZURE_OPENAI_DEPLOYMENT := "text-embedding-3-small";
     BLOB_CONNECTION_STRING := "UseDevelopmentStorage=true";
     BLOB_CONTAINER := "products";
     BLOB_FILE := "products.csv";
     embeddings_create := flaky_endpoint 0;
     uuid4 := fun k => "uuid-" +:+ pretty k;
     upload_documents := fun _ _ => None;
     download_blob := fun _ _ _ => Raise blob_not_found;
     json_loads := fun _ => Raise (MkExn JSONDecodeError "Expecting value: line 1 column 1 (char 0)");
     format_float := fun _ => "0.0";
     format_object := fun _ => Ok "<object>";
     pdf_chunks := fun _ => Ok [] |}.

(** * Properties *)

Section TraceFacts.

Lemma embed_calls_app (w1 w2 : World) :
  embed_calls (w1 ++ w2) = embed_calls w1 + embed_calls w2.
Proof. unfold embed_calls. by rewrite List.filter_app, length_app. Qed.

Lemma sleeps_app site (w1 w2 : World) :
  sleeps site (w1 ++ w2) = sleeps site w1 ++ sleeps site w2.
Proof.
  induction w1 as [|e w1 IH]; [done|].
  destruct e as [| | | |s secs|]; simpl; try done.
  destruct s, site; simpl; by rewrite ?IH.
Qed.

Lemma uploads_app (w1 w2 : World) :
  uploads (w1 ++ w2) = uploads w1 ++ uploads w2.
Proof.
  induction w1 as [|e w1 IH]; [done|].
  destruct e; simpl; by rewrite ?IH.
Qed.

End TraceFacts.

Section CsvErrors.

Lemma parse_add_char_error c r e :
  parse_add_char c r = Raise e -> exn_class e = CsvError.
Proof.
  unfold parse_add_char. repeat case_match; intros; by simplify_eq.
Qed.

Lemma parse_process_char_error c r e :
  parse_process_char c r = Raise e -> exn_class e = CsvError.
Proof.
  unfold parse_process_char, start_field.
  repeat case_match; intros; simplify_eq;
    first [done | by eapply parse_add_char_error].
Qed.

Lemma parse_line_error e line : forall r,
  parse_line line r = Raise e -> exn_class e = CsvError.
Proof.
  induction line as [|c line IH]; intros r; simpl.
  - apply parse_process_char_error.
  - destruct (parse_process_char (Some c) r) as [r'|e'] eqn:Hc.
    + apply IH.
    + intros; simplify_eq. by eapply parse_process_char_error.
Qed.

Lemma reader_records_error e : forall lines r,
  reader_records lines r = Raise e -> exn_class e = CsvError.
Proof.
  induction lines as [|line rest IH]; intros r; simpl.
  - by case_match.
  - destruct (parse_line line r) as [r'|e'] eqn:Hline.
    + destruct (state r'); try apply IH.
      destruct (reader_records rest parse_reset) eqn:Hrest; [done|].
      intros; simplify_eq. by eapply IH.
    + intros; simplify_eq. by eapply parse_line_error.
Qed.

End CsvErrors.

Section Loader.
Variable env : Env.

Lemma dict_reader_length records : length (dict_reader records) = length (data_rows records).
Proof. destruct records as [|fieldnames rest]; [done|]. apply length_fmap. Qed.

Lemma load_docs_from_blob_decoded conn container name payload text w :
  download_blob env conn container name = Ok payload ->
  decode_utf8 payload = Ok text ->
  load_docs_from_blob env conn container name w =
  (docs <- (if endswith name ".csv" then
              records <- lift (csv_reader text) ;;
              ret (PList (PDict <$> dict_reader records))
            else if endswith name ".json" then lift (json_loads env text)
            else raise (UnsupportedFormat name)) ;;
   _ <- lift (py_len docs) ;;
   ret docs) (w ++ [EvDownload container name]).
Proof.
  intros Hdl Hdec. unfold load_docs_from_blob, download.
  unfold bind at 1. unfold bind at 1. unfold emit, lift at 1. rewrite Hdl.
  unfold bind at 1. unfold lift at 1. by rewrite Hdec.
Qed.

(** C3, as the code has it. Once the blob is downloaded and its bytes decode
    as UTF-8: for a name that ends in [.csv], a text the csv reader accepts
    gives a list of dicts, one for each record after the first that is not
    blank, and a failure can only be a [csv.Error]; for a name that ends in
    [.json], a text that parses as an array gives that array, and a failure
    is the one of [json.loads] or a [TypeError]; for a name that ends in
    neither the function raises [ValueError("Unsupported file format: ...")]. *)
Theorem load_docs_from_blob_dispatch (conn container name : string)
    (payload : list Byte.byte) (text : string) (w : World) :
  download_blob env conn container name = Ok payload ->
  decode_utf8 payload = Ok text ->
  let run := load_docs_from_blob env conn container name w in
  let w' := w ++ [EvDownload container name] in
  (endswith name ".csv" = true ->
     (forall records, csv_reader text = Ok records ->
        exists rows, run = (Ok (PList (PDict <$> rows)), w')
                     /\ length rows = length (data_rows records))
     /\ (forall e w2, run = (Raise e, w2) -> exn_class e = CsvError))
  /\ (endswith name ".csv" = false -> endswith name ".json" = true ->
       (forall items, json_loads env text = Ok (PList items) ->
          run = (Ok (PList items), w'))
       /\ (forall e w2, run = (Raise e, w2) ->
             json_loads env text = Raise e \/ exn_class e = TypeError))
  /\ (endswith name ".csv" = false -> endswith name ".json" = false ->
       run = (Raise (UnsupportedFormat name), w')).
Proof.
  intros Hdl Hdec run w'. subst run.
  rewrite (load_docs_from_blob_decoded _ _ _ _ _ _ Hdl Hdec).
  split; [|split].
  - intros ->. split.
    + intros records Hrec. exists (dict_reader records).
      split; [|apply dict_reader_length].
      unfold bind, lift, ret. by rewrite Hrec.
    + intros e w2. unfold bind, lift, ret.
      destruct (csv_reader text) as [records|e'] eqn:Hrec; simpl; [done|].
      intros ?; simplify_eq.
      revert Hrec. unfold csv_reader. generalize parse_reset. generalize (readlines text).
      apply reader_records_error.
  - intros -> ->. split.
    + intros items Hitems. unfold bind, lift, ret. by rewrite Hitems.
    + intros e w2. unfold bind, lift, ret.
      destruct (json_loads env text) as [docs|e'] eqn:Hjson.
      * destruct docs; simpl; intros ?; simplify_eq; by right.
      * intros ?; simplify_eq. by left.
  - by intros -> ->.
Qed.

End Loader.

Section Transform.
Variable env : Env.

(** On a dict whose [name] can be written, [transform_doc] returns; the
    identifier is the next one of the generator. *)
Lemma transform_doc_run (d : PyDict) (w : World) (title : string) :
  py_format env (dict_get d "name" (PStr "")) = Ok title ->
  transform_doc env (PDict d) w =
  (Ok (<[KStr "chunk_id" := PStr (uuid4 env (uuid_calls w))]>
       (<[KStr "parent_id" := py_or (dict_get d "parent_id" (PStr "")) (PStr "")]>
        (<[KStr "main_category" := dict_get d "main_category" (PStr "")]>
         (<[KStr "sub_category" := dict_get d "sub_category" (PStr "")]>
          (<[KStr "chunk" := PStr (title +:+ ". ")]> ∅))))),
   w ++ [EvUuid (uuid4 env (uuid_calls w))]).
Proof.
  intros Hfmt. unfold transform_doc, bind, new_uuid, get_method, ret, lift.
  by rewrite Hfmt.
Qed.

(** On a dict whose [name] cannot be written, the error of the f-string is
    raised, after the identifier was drawn. *)
Lemma transform_doc_unwritable (d : PyDict) (w : World) (e : Exn) :
  py_format env (dict_get d "name" (PStr "")) = Raise e ->
  transform_doc env (PDict d) w = (Raise e, w ++ [EvUuid (uuid4 env (uuid_calls w))]).
Proof.
  intros Hfmt. unfold transform_doc, bind, new_uuid, get_method, ret, lift.
  by rewrite Hfmt.
Qed.

(** On a dict, [transform_doc] returns exactly when the f-string does. *)
Lemma transform_doc_returns (d : PyDict) (w : World) (doc : Doc) (w' : World) :
  transform_doc env (PDict d) w = (Ok doc, w') ->
  exists title, py_format env (dict_get d "name" (PStr "")) = Ok title.
Proof.
  destruct (py_format env (dict_get d "name" (PStr ""))) as [title|e] eqn:Hfmt.
  - by exists title.
  - by rewrite (transform_doc_unwritable _ _ _ Hfmt).
Qed.

(** C5, as the code has it. For every raw record that is a dict,
    [transform_doc] draws an identifier and then writes the record's [name]
    in the f-string.  When the name can be written, it returns a document in
    which: [chunk] is that text followed by [". "]; [main_category] and
    [sub_category] are the record's values, or the empty string when the
    field is absent; [parent_id] is the record's value when that value is
    truthy and the empty string otherwise (absent, [None], empty).  When the
    name cannot be written, the error of the f-string is raised.  The name
    can be written when it is a string (the text is the string itself), when
    the field is absent (the empty text), when it is [None], and when it is
    an [int] of at most 4300 digits (one below [10^4300] in absolute value);
    an [int] of more digits cannot, and its error is a [ValueError]. *)
Theorem transform_doc_fields (d : PyDict) (w : World) :
  let name := dict_get d "name" (PStr "") in
  let w' := w ++ [EvUuid (uuid4 env (uuid_calls w))] in
  (forall title, py_format env name = Ok title ->
     exists doc,
       transform_doc env (PDict d) w = (Ok doc, w')
       /\ doc !! KStr "chunk" = Some (PStr (title +:+ ". "))
       /\ doc !! KStr "main_category" = Some (dict_get d "main_category" (PStr ""))
       /\ doc !! KStr "sub_category" = Some (dict_get d "sub_category" (PStr ""))
       /\ (forall v, d !! KStr "parent_id" = Some v -> py_truthy v = true ->
           doc !! KStr "parent_id" = Some v)
       /\ (forall v, d !! KStr "parent_id" = Some v -> py_truthy v = false ->
           doc !! KStr "parent_id" = Some (PStr ""))
       /\ (d !! KStr "parent_id" = None -> doc !! KStr "parent_id" = Some (PStr ""))
       /\ doc !! KStr "chunk_id" = Some (PStr (uuid4 env (uuid_calls w))))
  /\ (forall e, py_format env name = Raise e ->
        transform_doc env (PDict d) w = (Raise e, w'))
  /\ (forall s, d !! KStr "name" = Some (PStr s) -> py_format env name = Ok s)
  /\ (d !! KStr "name" = None -> py_format env name = Ok "")
  /\ (d !! KStr "name" = Some PNone -> py_format env name = Ok "None")
  /\ (forall z, d !! KStr "name" = Some (PInt z) -> (Z.abs z < int_str_limit)%Z ->
        py_format env name = Ok (pretty z))
  /\ (forall z, d !! KStr "name" = Some (PInt z) -> (int_str_limit <= Z.abs z)%Z ->
        exists e, py_format env name = Raise e /\ exn_class e = ValueError).
Proof.
  intros name w'. subst name w'. split_and!.
  - intros title Hfmt. eexists. split; [by apply transform_doc_run|].
    split_and!.
    + by simplify_map_eq.
    + by simplify_map_eq.
    + by simplify_map_eq.
    + intros v Hv Ht. simplify_map_eq. unfold dict_get, py_or. by rewrite Hv, Ht.
    + intros v Hv Ht. simplify_map_eq. unfold dict_get, py_or. by rewrite Hv, Ht.
    + intros Hv. simplify_map_eq. unfold dict_get, py_or. by rewrite Hv.
    + by simplify_map_eq.
  - intros e Hfmt. by apply transform_doc_unwritable.
  - intros s Hs. unfold dict_get. by rewrite Hs.
  - intros Hs. unfold dict_get. by rewrite Hs.
  - intros Hs. unfold dict_get. by rewrite Hs.
  - intros z Hz Hsmall. unfold dict_get. rewrite Hz. cbn [py_format]. unfold int_str.
    by destruct (Z.ltb_spec (Z.abs z) int_str_limit); [|lia].
  - intros z Hz Hbig. unfold dict_get. rewrite Hz. cbn [py_format]. unfold int_str.
    destruct (Z.ltb_spec (Z.abs z) int_str_limit); [lia|]. by eexists.
Qed.

End Transform.

Section Determinism.
Variable env : Env.

(** C9. [transform_doc] depends on the run only through the identifier it
    draws: two runs on the same record, under any two generators and after any
    two histories, raise the same error or return documents that are equal
    once [chunk_id] is set aside; and when the two generators give the same
    identifier, the two results are equal. *)
Theorem transform_doc_deterministic (g1 g2 : nat -> string) (raw_doc : PyVal) (w1 w2 : World) :
  let r1 := fst (transform_doc (with_uuid4 g1 env) raw_doc w1) in
  let r2 := fst (transform_doc (with_uuid4 g2 env) raw_doc w2) in
  without_chunk_id r1 = without_chunk_id r2
  /\ (g1 (uuid_calls w1) = g2 (uuid_calls w2) -> r1 = r2).
Proof.
  destruct raw_doc as [| | | | | |d]; try (split; [reflexivity|intros _; reflexivity]).
  intros r1 r2. subst r1 r2.
  assert (Hfmt : forall g v, py_format (with_uuid4 g env) v = py_format env v)
    by (intros g v; by destruct v).
  destruct (py_format env (dict_get d "name" (PStr ""))) as [title|e] eqn:Hname.
  - rewrite !(transform_doc_run _ _ _ title) by (by rewrite Hfmt).
    cbn [fst without_chunk_id with_uuid4 uuid4].
    split.
    + f_equal; by rewrite ?delete_insert_eq.
    + intros Hid. by rewrite Hid.
  - rewrite !(transform_doc_unwritable _ _ _ e) by (by rewrite Hfmt).
    by split.
Qed.

End Determinism.

Section Retry.
Variable env : Env.

Lemma backoff_events_S text a n :
  backoff_events env text a (S n) =
  [EvEmbed (AZURE_OPENAI_DEPLOYMENT env) text; EvSleep Backoff (2 ^ Z.of_nat a)]
  ++ backoff_events env text (S a) n.
Proof. reflexivity. Qed.


Lemma sleeps_backoff text a n :
  sleeps Backoff (backoff_events env text a n) = (fun k => 2 ^ Z.of_nat k)%Z <$> seq a n.
Proof.
  revert a. induction n as [|n IH]; intros a; [done|].
  rewrite backoff_events_S, sleeps_app, IH. reflexivity.
Qed.

(** A duration that [time.sleep] accepts is slept. *)
Lemma sleep_run site secs w :
  (0 <= secs)%Z -> (secs * 10 ^ 9 <= 2 ^ 63 - 1)%Z ->
  sleep site secs w = (Ok tt, w ++ [EvSleep site secs]).
Proof.
  intros H0 Hfit. unfold sleep.
  destruct (Z.ltb_spec secs 0); [lia|].
  by destruct (Z.ltb_spec (2 ^ 63 - 1) (secs * 10 ^ 9)); [lia|].
Qed.

Lemma sleep_one site w : sleep site 1 w = (Ok tt, w ++ [EvSleep site 1]).
Proof. reflexivity. Qed.

(** The waits of the attempts 0 to 33 can be printed and slept. *)
Lemma wait_time_bounds (attempt : Z) :
  (0 <= attempt <= 33)%Z -> (1 <= 2 ^ attempt <= 2 ^ 33)%Z.
Proof.
  intros H. split.
  - apply (Z.pow_le_mono_r 2 0 attempt); lia.
  - apply Z.pow_le_mono_r; lia.
Qed.

Lemma int_str_small (z : Z) : (Z.abs z <= 2 ^ 34)%Z -> int_str z = Ok (pretty z).
Proof.
  intros Hz. unfold int_str.
  destruct (Z.ltb_spec (Z.abs z) int_str_limit) as [|Hbig]; [done|].
  assert (10 ^ 11 <= int_str_limit)%Z
    by (apply Z.pow_le_mono_r; unfold int_max_str_digits; lia).
  assert (2 ^ 34 < 10 ^ 11)%Z by (vm_compute; reflexivity).
  lia.
Qed.

(** One attempt whose endpoint call is retried: the call, the sleep, and on
    to the remaining attempts. *)
Lemma attempt_rate_limited text attempt rest w :
  (0 <= attempt <= 33)%Z ->
  fails_with_429_text env text (embed_calls w) ->
  get_embedding_attempts env text (attempt :: rest) w =
  get_embedding_attempts env text rest
    (w ++ [EvEmbed (AZURE_OPENAI_DEPLOYMENT env) text; EvSleep Backoff (2 ^ attempt)]).
Proof.
  intros Hrange (e & He & H429).
  pose proof (wait_time_bounds attempt Hrange) as Hwait.
  assert (H33 : (2 ^ 33 * 10 ^ 9 <= 2 ^ 63 - 1)%Z) by (vm_compute; discriminate).
  cbn [get_embedding_attempts]. unfold try_except, bind at 1, create_embedding.
  rewrite He, H429. cbv zeta. unfold bind, lift.
  rewrite int_str_small by lia.
  rewrite sleep_run by nia.
  by rewrite <- app_assoc.
Qed.

(** The attempt 34 whose endpoint call is retried: the call, and the error
    of [time.sleep], which does not take [2^34] seconds. *)
Lemma attempt_overflows text rest w :
  fails_with_429_text env text (embed_calls w) ->
  get_embedding_attempts env text (34%Z :: rest) w =
  (Raise SleepOverflow,
   w ++ [EvEmbed (AZURE_OPENAI_DEPLOYMENT env) text]).
Proof.
  intros (e & He & H429).
  cbn [get_embedding_attempts]. unfold try_except, bind at 1, create_embedding.
  rewrite He, H429. cbv zeta. unfold bind, lift.
  rewrite int_str_small by lia.
  reflexivity.
Qed.


(** An attempt whose endpoint call returns an embedding: the function
    returns it. *)
Lemma attempt_succeeds text attempt rest w v data :
  embeddings_create env (embed_calls w) text = RespOk (v :: data) ->
  get_embedding_attempts env text (attempt :: rest) w =
  (Ok v, w ++ [EvEmbed (AZURE_OPENAI_DEPLOYMENT env) text]).
Proof.
  intros Hok. cbn [get_embedding_attempts].
  unfold try_except, bind, create_embedding. by rewrite Hok.
Qed.

(** An attempt whose endpoint call fails with another error: the error is
    raised again. *)
Lemma attempt_fails text attempt rest w e :
  embeddings_create env (embed_calls w) text = RespRaise e ->
  is_rate_limit e = false ->
  get_embedding_attempts env text (attempt :: rest) w =
  (Raise e, w ++ [EvEmbed (AZURE_OPENAI_DEPLOYMENT env) text]).
Proof.
  intros He H429. cbn [get_embedding_attempts].
  unfold try_except, bind, create_embedding. by rewrite He, H429.
Qed.




(** C10. With [max_retries <= 0] the loop body never runs: [get_embedding]
    raises [RuntimeError("Failed after retries")] and the trace is unchanged,
    so the endpoint is not called, whatever it would have answered. *)
Theorem get_embedding_no_attempts (text : PyVal) (m : Z) (w : World) :
  (m <= 0)%Z ->
  get_embedding env text m w = (Raise ExhaustedRetries, w).
Proof.
  intros Hm. unfold get_embedding, range.
  replace (Z.to_nat m) with 0%nat by lia. reflexivity.
Qed.

End Retry.

Create HintDb quiet.

Section Quiet.
Variable env : Env.

Lemma uuid_calls_app (w1 w2 : World) :
  uuid_calls (w1 ++ w2) = uuid_calls w1 + uuid_calls w2.
Proof. unfold uuid_calls. by rewrite List.filter_app, length_app. Qed.

Lemma upload_calls_app (w1 w2 : World) :
  upload_calls (w1 ++ w2) = upload_calls w1 + upload_calls w2.
Proof. unfold upload_calls. by rewrite List.filter_app, length_app. Qed.

Lemma record_events_app (w1 w2 : World) :
  record_events (w1 ++ w2) = record_events w1 ++ record_events w2.
Proof. apply List.filter_app. Qed.

Lemma record_events_id (tr : World) :
  Forall (fun e => is_record_event e = true) tr -> record_events tr = tr.
Proof.
  induction 1 as [|e tr He _ IH]; [done|].
  unfold record_events in *. simpl. by rewrite He, IH.
Qed.

Lemma uploads_record_events (tr : World) :
  Forall (fun e => is_record_event e = true) tr -> uploads tr = [].
Proof.
  induction 1 as [|e tr He _ IH]; [done|].
  destruct e; simpl in *; done.
Qed.

Lemma embed_calls_record_events (w : World) :
  embed_calls (record_events w) = embed_calls w.
Proof.
  unfold embed_calls, record_events.
  induction w as [|e w IH]; [done|].
  destruct e as [| | | |[]|]; simpl; by rewrite ?IH.
Qed.

Lemma uuid_calls_record_events (w : World) :
  uuid_calls (record_events w) = uuid_calls w.
Proof.
  unfold uuid_calls, record_events.
  induction w as [|e w IH]; [done|].
  destruct e as [| | | |[]|]; simpl; by rewrite ?IH.
Qed.

Lemma quiet_ret {A} (a : A) : quiet (ret a).
Proof. intros w. exists []. by rewrite !app_nil_r. Qed.

Lemma quiet_raise {A} (e : Exn) : quiet (@raise A e).
Proof. intros w. exists []. by rewrite !app_nil_r. Qed.

Lemma quiet_lift {A} (r : PyResult A) : quiet (lift r).
Proof. intros w. exists []. by rewrite !app_nil_r. Qed.

Lemma quiet_emit (e : Event) : is_record_event e = true -> quiet (emit e).
Proof.
  intros He w. exists [e]. split; [done|]. split; [by constructor|done].
Qed.

Lemma quiet_backoff_sleep (secs : Z) : quiet (sleep Backoff secs).
Proof.
  unfold sleep. destruct (secs <? 0)%Z; [apply quiet_raise|].
  destruct (2 ^ 63 - 1 <? secs * 10 ^ 9)%Z; [apply quiet_raise|by apply quiet_emit].
Qed.

Lemma quiet_bind {A B} (m : M A) (k : A -> M B) :
  quiet m -> (forall a, quiet (k a)) -> quiet (bind m k).
Proof.
  intros Hm Hk w. destruct (Hm w) as (tr1 & Hw1 & Hrec1 & Herase1).
  unfold bind. rewrite Herase1.
  destruct (m w) as [[a|e] w1]; simpl in *; subst w1.
  - destruct (Hk a (w ++ tr1)) as (tr2 & Hw2 & Hrec2 & Herase2).
    exists (tr1 ++ tr2). split; [by rewrite Hw2, app_assoc|].
    split; [by apply Forall_app|].
    rewrite record_events_app, (record_events_id tr1) in Herase2 by done.
    by rewrite Herase2, app_assoc.
  - by exists tr1.
Qed.

Lemma quiet_try_except {A} (m : M A) (handler : Exn -> M A) :
  quiet m -> (forall e, quiet (handler e)) -> quiet (try_except m handler).
Proof.
  intros Hm Hh w. destruct (Hm w) as (tr1 & Hw1 & Hrec1 & Herase1).
  unfold try_except. rewrite Herase1.
  destruct (m w) as [[a|e] w1]; simpl in *; subst w1.
  - by exists tr1.
  - destruct (Hh e (w ++ tr1)) as (tr2 & Hw2 & Hrec2 & Herase2).
    exists (tr1 ++ tr2). split; [by rewrite Hw2, app_assoc|].
    split; [by apply Forall_app|].
    rewrite record_events_app, (record_events_id tr1) in Herase2 by done.
    by rewrite Herase2, app_assoc.
Qed.

Lemma quiet_create_embedding text : quiet (create_embedding env text).
Proof.
  intros w. exists [EvEmbed (AZURE_OPENAI_DEPLOYMENT env) text].
  unfold create_embedding. rewrite embed_calls_record_events.
  destruct (embeddings_create env (embed_calls w) text);
    (split; [done|split; [by repeat constructor|done]]).
Qed.

Lemma quiet_new_uuid : quiet (new_uuid env).
Proof.
  intros w. exists [EvUuid (uuid4 env (uuid_calls w))].
  unfold new_uuid. rewrite uuid_calls_record_events.
  split; [done|split; [by repeat constructor|done]].
Qed.

Lemma quiet_subscript doc key : quiet (subscript doc key).
Proof. unfold subscript. destruct (doc !! _); [apply quiet_ret|apply quiet_raise]. Qed.

Lemma quiet_get_method raw_doc : quiet (get_method raw_doc).
Proof. destruct raw_doc; first [apply quiet_ret|apply quiet_raise]. Qed.

#[local] Hint Resolve quiet_ret quiet_raise quiet_lift quiet_create_embedding
  quiet_new_uuid quiet_subscript quiet_get_method : quiet.

(** A bind is quiet when its parts are; the continuation is entered. *)
Ltac quiet_binds :=
  repeat (apply quiet_bind; [auto with quiet|intros ?]); auto with quiet.

Lemma quiet_get_embedding text max_retries : quiet (get_embedding env text max_retries).
Proof.
  unfold get_embedding. induction (range max_retries) as [|attempt rest IH].
  - apply quiet_raise.
  - cbn [get_embedding_attempts]. apply quiet_try_except.
    + apply quiet_bind; [apply quiet_create_embedding|].
      intros [|v data]; [apply quiet_raise|apply quiet_ret].
    + intros e. destruct (is_rate_limit e); [|apply quiet_raise].
      cbv zeta. apply quiet_bind; [apply quiet_lift|intros _].
      apply quiet_bind; [apply quiet_backoff_sleep|done].
Qed.

#[local] Hint Resolve quiet_get_embedding : quiet.

Lemma quiet_transform_doc raw_doc : quiet (transform_doc env raw_doc).
Proof. unfold transform_doc. quiet_binds. Qed.

#[local] Hint Resolve quiet_transform_doc : quiet.

Lemma quiet_embed_record raw_doc : quiet (embed_record env raw_doc).
Proof. unfold embed_record. quiet_binds. Qed.

Lemma quiet_chunk_doc raw_doc : quiet (Reports.chunk_doc env raw_doc).
Proof. unfold Reports.chunk_doc. quiet_binds. Qed.

End Quiet.

Section BatchLoop.
Variable env : Env.
Context {R : Type} (produce : R -> M Doc).
Hypothesis produce_quiet : forall r, quiet (produce r).

(** What a run of [produce] adds to the trace holds no upload. *)
Lemma produce_events r w res w1 :
  produce r w = (res, w1) ->
  exists tr,
    w1 = w ++ tr /\ uploads tr = []
    /\ record_events w1 = record_events w ++ tr
    /\ produce r (record_events w) = (res, record_events w ++ tr).
Proof.
  intros Hrun. destruct (produce_quiet r w) as (tr & Hw & Hrec & Herase).
  rewrite Hrun in Hw, Herase. simpl in *. subst w1. exists tr.
  split; [done|]. split; [by apply uploads_record_events|].
  split; [|done]. by rewrite record_events_app, (record_events_id tr).
Qed.

Lemma flush_if_full_run batch_size batch w :
  flush_if_full env batch_size batch w =
  if (batch_size <=? Z.of_nat (length batch))%Z then
    match upload_documents env (upload_calls w) batch with
    | None => (Ok [], w ++ [EvUpload batch; EvSleep BatchPause 1])
    | Some e => (Raise e, w ++ [EvUpload batch])
    end
  else (Ok batch, w).
Proof.
  unfold flush_if_full. destruct (batch_size <=? _)%Z; [|done].
  unfold bind, upload.
  destruct (upload_documents env (upload_calls w) batch); [done|].
  rewrite sleep_one. unfold ret. by rewrite <- app_assoc.
Qed.

Lemma upload_leftover_run batch w :
  upload_leftover env batch w =
  match batch with
  | [] => (Ok tt, w)
  | _ =>
      (match upload_documents env (upload_calls w) batch with
       | None => Ok tt
       | Some e => Raise e
       end, w ++ [EvUpload batch])
  end.
Proof.
  destruct batch as [|d batch]; [done|].
  unfold upload_leftover, upload. by destruct (upload_documents _ _ _).
Qed.

(** Whatever the threshold and however the run ends, no upload is empty. *)
Lemma batch_loop_uploads_nonempty batch_size items : forall batch w r w',
  batch_loop env produce batch_size items batch w = (r, w') ->
  exists tr, w' = w ++ tr /\ Forall (fun docs => (0 < length docs)%nat) (uploads tr).
Proof.
  induction items as [|item rest IH]; intros batch w r w' Hrun.
  - cbn [batch_loop] in Hrun. rewrite upload_leftover_run in Hrun.
    destruct batch as [|d batch]; simplify_eq.
    + exists []. by rewrite app_nil_r.
    + eexists. split; [done|]. simpl. constructor; [simpl; lia|constructor].
  - cbn [batch_loop] in Hrun. unfold bind at 1 in Hrun.
    destruct (produce item w) as [[doc|e] w1] eqn:Hprod;
      destruct (produce_events _ _ _ _ Hprod) as (tr1 & -> & Hup1 & _).
    2: { simplify_eq. exists tr1. split; [done|]. rewrite Hup1. constructor. }
    unfold bind at 1 in Hrun. rewrite flush_if_full_run in Hrun.
    destruct (batch_size <=? _)%Z.
    + destruct (upload_documents _ _ _).
      * simplify_eq. eexists. split; [by rewrite <- app_assoc|].
        rewrite uploads_app, Hup1. simpl. constructor; [|constructor].
        rewrite length_app. simpl. lia.
      * apply IH in Hrun as (tr & -> & Hne).
        eexists. split; [by rewrite <- !app_assoc|].
        rewrite !uploads_app, Hup1. simpl. constructor; [|done].
        rewrite length_app. simpl. lia.
    + apply IH in Hrun as (tr & -> & Hne).
      eexists. split; [by rewrite <- !app_assoc|].
      by rewrite !uploads_app, Hup1.
Qed.

Lemma batch_sizes_small b t :
  (t < b)%nat -> batch_sizes b t = if (t =? 0)%nat then [] else [t].
Proof.
  intros Ht. unfold batch_sizes. by rewrite Nat.div_small, Nat.mod_small.
Qed.

Lemma batch_sizes_full b t :
  (0 < b)%nat -> batch_sizes b (b + t) = b :: batch_sizes b t.
Proof.
  intros Hb. unfold batch_sizes.
  replace (b + t)%nat with (1 * b + t)%nat at 1 by lia.
  rewrite Nat.div_add_l by lia.
  replace (b + t)%nat with (t + 1 * b)%nat by lia.
  by rewrite Nat.Div0.mod_add.
Qed.

(** A run that completes, with a threshold of at least one: the uploads are
    full batches, then what is left. *)
Lemma batch_loop_sizes batch_size items : forall batch w w',
  (1 <= batch_size)%Z ->
  (length batch < Z.to_nat batch_size)%nat ->
  batch_loop env produce batch_size items batch w = (Ok tt, w') ->
  exists tr,
    w' = w ++ tr
    /\ length <$> uploads tr = batch_sizes (Z.to_nat batch_size) (length batch + length items).
Proof.
  intros batch w w' HB. revert batch w.
  induction items as [|item rest IH]; intros batch w Hlen Hrun.
  - cbn [batch_loop] in Hrun. rewrite upload_leftover_run in Hrun.
    simpl. rewrite Nat.add_0_r, batch_sizes_small by done.
    destruct batch as [|d batch]; simplify_eq.
    + exists []. by rewrite app_nil_r.
    + by eexists.
  - cbn [batch_loop] in Hrun. unfold bind at 1 in Hrun.
    destruct (produce item w) as [[doc|e] w1] eqn:Hprod; [|done].
    destruct (produce_events _ _ _ _ Hprod) as (tr1 & -> & Hup1 & _).
    unfold bind at 1 in Hrun. rewrite flush_if_full_run in Hrun.
    assert (Hlen' : length (batch ++ [doc]) = S (length batch))
      by (rewrite length_app; simpl; lia).
    destruct (batch_size <=? _)%Z eqn:Hfull.
    + destruct (upload_documents _ _ _); [done|].
      apply IH in Hrun as (tr & -> & Hsizes); [|simpl; lia].
      eexists. split; [by rewrite <- !app_assoc|].
      rewrite !uploads_app, Hup1. cbn [uploads app].
      rewrite fmap_cons, Hsizes, Hlen'.
      assert (S (length batch) = Z.to_nat batch_size) as Heq by lia.
      rewrite Heq, <- batch_sizes_full by lia. f_equal. simpl. lia.
    + apply IH in Hrun as (tr & -> & Hsizes); [|lia].
      eexists. split; [by rewrite <- !app_assoc|].
      rewrite !uploads_app, Hup1. cbn [app].
      rewrite Hsizes, Hlen'. f_equal. simpl. lia.
Qed.

(** A run that completes: the documents uploaded are those of the records, in
    the order of the records, and the work on the records is the one of
    [run_all], which takes them one at a time. *)
Lemma batch_loop_order batch_size items : forall batch w w',
  batch_loop env produce batch_size items batch w = (Ok tt, w') ->
  exists docs,
    run_all produce items (record_events w) = (Ok docs, record_events w')
    /\ concat (uploads w') = concat (uploads w) ++ batch ++ docs.
Proof.
  induction items as [|item rest IH]; intros batch w w' Hrun.
  - cbn [batch_loop] in Hrun. rewrite upload_leftover_run in Hrun.
    exists []. destruct batch as [|d batch]; simplify_eq.
    + by rewrite !app_nil_r.
    + destruct (upload_documents _ _ _); [done|]. simplify_eq.
      rewrite record_events_app, uploads_app, concat_app. simpl.
      by rewrite !app_nil_r.
  - cbn [batch_loop] in Hrun. unfold bind at 1 in Hrun.
    destruct (produce item w) as [[doc|e] w1] eqn:Hprod; [|done].
    destruct (produce_events _ _ _ _ Hprod) as (tr1 & -> & Hup1 & Hrec1 & Herase1).
    unfold bind at 1 in Hrun. rewrite flush_if_full_run in Hrun.
    cbn [run_all]. unfold bind at 1. rewrite Herase1, <- Hrec1.
    destruct (batch_size <=? _)%Z.
    + destruct (upload_documents _ _ _); [done|].
      apply IH in Hrun as (docs & Hall & Hup).
      exists (doc :: docs). split.
      * rewrite record_events_app in Hall. simpl in Hall. rewrite app_nil_r in Hall.
        unfold bind, ret. by rewrite Hall.
      * rewrite Hup, !uploads_app, Hup1, !concat_app. simpl.
        by rewrite !app_nil_r, <- !app_assoc.
    + apply IH in Hrun as (docs & Hall & Hup).
      exists (doc :: docs). split.
      * unfold bind, ret. by rewrite Hall.
      * rewrite Hup, !uploads_app, Hup1. simpl.
        by rewrite !app_nil_r, <- !app_assoc.
Qed.

(** A run that completes, on its own trace: the documents are made one
    after the other, flushes between them, and the uploads put end to end
    are the batch the loop started with and then these documents. *)
Lemma batch_loop_produced batch_size items : forall batch w w',
  batch_loop env produce batch_size items batch w = (Ok tt, w') ->
  exists docs w_last fl tr,
    produced produce w items docs w_last
    /\ w' = w_last ++ fl /\ flush_events fl
    /\ w' = w ++ tr
    /\ concat (uploads tr) = batch ++ docs.
Proof.
  induction items as [|item rest IH]; intros batch w w' Hrun.
  - cbn [batch_loop] in Hrun. rewrite upload_leftover_run in Hrun.
    destruct batch as [|d batch]; simplify_eq.
    + exists [], w', [], []. rewrite !app_nil_r.
      split_and!; try done; [apply produced_nil|apply Forall_nil_2].
    + destruct (upload_documents _ _ _); [done|]. simplify_eq.
      exists [], w, [EvUpload (d :: batch)], [EvUpload (d :: batch)].
      split_and!; try done; [apply produced_nil|by apply Forall_singleton].
  - cbn [batch_loop] in Hrun. unfold bind at 1 in Hrun.
    destruct (produce item w) as [[doc|e] w1] eqn:Hprod; [|done].
    destruct (produce_events _ _ _ _ Hprod) as (tr1 & Hw1 & Hup1 & _).
    unfold bind at 1 in Hrun. rewrite flush_if_full_run in Hrun.
    destruct (batch_size <=? _)%Z.
    + destruct (upload_documents _ _ _); [done|].
      apply IH in Hrun as (docs & w_last & fl & tr & Hdocs & Hlast & Hfl & Htr & Hup).
      exists (doc :: docs), w_last, fl,
        (tr1 ++ [EvUpload (batch ++ [doc]); EvSleep BatchPause 1] ++ tr).
      split_and!; try done.
      * eapply produced_cons; [exact Hprod| |exact Hdocs]. by repeat constructor.
      * rewrite Htr, Hw1. by rewrite <- !app_assoc.
      * rewrite !uploads_app, Hup1. simpl. rewrite Hup. simpl.
        by rewrite <- app_assoc.
    + apply IH in Hrun as (docs & w_last & fl & tr & Hdocs & Hlast & Hfl & Htr & Hup).
      exists (doc :: docs), w_last, fl, (tr1 ++ tr).
      split_and!; try done.
      * eapply (produced_cons _ _ _ _ _ _ []); [exact Hprod|constructor|].
        by rewrite app_nil_r.
      * rewrite Htr, Hw1. by rewrite <- !app_assoc.
      * rewrite !uploads_app, Hup1. simpl. rewrite Hup.
        by rewrite <- app_assoc.
Qed.

End BatchLoop.

Section Products.
Variable env : Env.

Lemma process_records_cons batch_size raw_doc rest batch w :
  process_records env batch_size (raw_doc :: rest) batch w =
  match append_record env raw_doc batch w with
  | (Ok batch1, w1) =>
      match flush_if_full env batch_size batch1 w1 with
      | (Ok batch2, w2) => process_records env batch_size rest batch2 w2
      | (Raise e, w2) => (Raise e, w2)
      end
  | (Raise e, w1) => (Raise e, w1)
  end.
Proof. reflexivity. Qed.

Lemma process_records_batch_loop batch_size raw_docs : forall batch w,
  process_records env batch_size raw_docs batch w =
  batch_loop env (embed_record env) batch_size raw_docs batch w.
Proof.
  induction raw_docs as [|raw_doc rest IH]; intros batch w; [done|].
  cbn [process_records batch_loop]. unfold append_record, bind, ret.
  destruct (embed_record env raw_doc w) as [[doc|e] w1]; [|done].
  destruct (flush_if_full env batch_size (batch ++ [doc]) w1) as [[batch'|e] w2]; [|done].
  apply IH.
Qed.

(** Once the blob is read as a list, the run is the loop over its items. *)
Lemma process_and_upload_loaded batch_size raw_docs w w0 :
  load_docs_from_blob env (BLOB_CONNECTION_STRING env) (BLOB_CONTAINER env) (BLOB_FILE env) w
    = (Ok (PList raw_docs), w0) ->
  process_and_upload env batch_size w = process_records env batch_size raw_docs [] w0.
Proof. intros Hload. unfold process_and_upload, bind at 1. by rewrite Hload. Qed.

(** What [embed_record] returns is what [transform_doc] returned with the
    vector of [get_embedding] for its chunk. *)
Lemma embed_record_step raw_doc w doc' w2 :
  embed_record env raw_doc w = (Ok doc', w2) ->
  exists doc chunk embedding w1,
    transform_doc env raw_doc w = (Ok doc, w1)
    /\ doc !! KStr "chunk" = Some chunk
    /\ get_embedding env chunk 5 w1 = (Ok embedding, w2)
    /\ doc' = attach (doc, embedding).
Proof.
  unfold embed_record, bind. intros Hrun.
  destruct (transform_doc env raw_doc w) as [[doc|e] w1] eqn:Htr; [|done].
  unfold subscript in Hrun.
  destruct (doc !! KStr "chunk") as [chunk|] eqn:Hchunk; [|done].
  unfold ret at 1 in Hrun.
  destruct (get_embedding env chunk 5 w1) as [[embedding|e] w2'] eqn:Hemb; [|done].
  unfold ret in Hrun. simplify_eq.
  by exists doc, chunk, embedding, w1.
Qed.

Lemma produced_record_steps w raw_docs docs w3 :
  produced (embed_record env) w raw_docs docs w3 ->
  exists steps, record_steps env w raw_docs steps w3 /\ docs = attach <$> steps.
Proof.
  induction 1 as [w|w raw_doc rest doc' w2 fl docs w3 Hdoc Hfl _ (steps & Hsteps & ->)].
  - exists []. split; [constructor|done].
  - apply embed_record_step in Hdoc as (doc & chunk & embedding & w1 & Htr & Hchunk & Hemb & ->).
    exists ((doc, embedding) :: steps). split; [|done].
    by eapply record_steps_cons.
Qed.

Lemma record_steps_length w raw_docs steps w3 :
  record_steps env w raw_docs steps w3 -> length steps = length raw_docs.
Proof. induction 1; simpl; congruence. Qed.

Lemma attach_vector_attached (step : Doc * PyVal) : vector_attached step (attach step).
Proof.
  split; [apply lookup_insert_eq|]. intros k Hk. by apply lookup_insert_ne.
Qed.

(** A completed run of the loop, on its own trace. *)
Lemma process_records_steps batch_size raw_docs batch w w' :
  process_records env batch_size raw_docs batch w = (Ok tt, w') ->
  exists steps w_last fl tr,
    record_steps env w raw_docs steps w_last
    /\ w' = w_last ++ fl /\ flush_events fl
    /\ w' = w ++ tr
    /\ concat (uploads tr) = batch ++ (attach <$> steps).
Proof.
  intros Hrun. rewrite process_records_batch_loop in Hrun.
  destruct (batch_loop_produced env _ (quiet_embed_record env) _ _ _ _ _ Hrun)
    as (docs & w_last & fl & tr & Hdocs & Hlast & Hfl & Htr & Hup).
  apply produced_record_steps in Hdocs as (steps & Hsteps & ->).
  by exists steps, w_last, fl, tr.
Qed.

(** When the endpoint answers every call with an embedding, the index
    accepts every upload and every record is a dict, the run completes. *)
Lemma get_embedding_succeeds text max_retries w :
  (1 <= max_retries)%Z ->
  (forall k t, exists v data, embeddings_create env k t = RespOk (v :: data)) ->
  exists v w', get_embedding env text max_retries w = (Ok v, w').
Proof.
  intros Hm Hok. unfold get_embedding, range.
  destruct (Z.to_nat max_retries) as [|n] eqn:Hn; [lia|].
  destruct (Hok (embed_calls w) text) as (v & data & Hv).
  cbn [seq fmap list_fmap]. erewrite attempt_succeeds by exact Hv. by eexists _, _.
Qed.

Lemma process_records_completes batch_size raw_docs :
  (forall k t, exists v data, embeddings_create env k t = RespOk (v :: data)) ->
  (forall k docs, upload_documents env k docs = None) ->
  Forall (fun raw_doc =>
            exists d title,
              raw_doc = PDict d
              /\ py_format env (dict_get d "name" (PStr "")) = Ok title) raw_docs ->
  forall batch w, exists w', process_records env batch_size raw_docs batch w = (Ok tt, w').
Proof.
  intros Hok Hup. induction 1 as [|raw_doc rest (d & title & -> & Hfmt) _ IH]; intros batch w.
  - cbn [process_records]. rewrite upload_leftover_run.
    destruct batch; [by eexists|]. rewrite Hup. by eexists.
  - rewrite process_records_cons.
    unfold append_record, embed_record, bind at 1, bind at 1.
    rewrite (transform_doc_run _ _ _ _ Hfmt).
    unfold bind at 1, subscript. rewrite lookup_insert_ne, lookup_insert_ne,
      lookup_insert_ne, lookup_insert_ne, lookup_insert_eq by done.
    unfold ret at 1. unfold bind at 1.
    edestruct get_embedding_succeeds as (v & w1 & ->); [|exact Hok|]; [lia|].
    unfold ret. rewrite flush_if_full_run.
    destruct (batch_size <=? _)%Z; [rewrite Hup|]; apply IH.
Qed.

Lemma ceil_div (n b : nat) :
  (0 < b)%nat ->
  length (batch_sizes b n) = ((n + b - 1) / b)%nat.
Proof.
  intros Hb. unfold batch_sizes. rewrite length_app, length_replicate.
  pose proof (Nat.div_mod_eq n b) as Hn.
  pose proof (Nat.mod_upper_bound n b ltac:(lia)) as Hr.
  destruct (n mod b =? 0)%nat eqn:Hz.
  - apply Nat.eqb_eq in Hz. simpl.
    apply (Nat.div_unique _ _ _ (b - 1)); lia.
  - apply Nat.eqb_neq in Hz. simpl.
    apply (Nat.div_unique _ _ _ (n mod b - 1)); lia.
Qed.

(** C4. With a threshold [B >= 1] and [n] records, a run that completes
    uploads [ceil(n/B)] times: [floor(n/B)] lists of exactly [B] documents,
    then, when [n mod B] is not zero, one list of [n mod B] documents (so
    nothing for the rest when [n mod B = 0], and nothing at all when [n = 0]);
    and no run, however it ends, uploads an empty list. *)
Theorem process_and_upload_batches (batch_size : Z) (raw_docs : list PyVal) (w w0 : World) :
  (1 <= batch_size)%Z ->
  load_docs_from_blob env (BLOB_CONNECTION_STRING env) (BLOB_CONTAINER env) (BLOB_FILE env) w
    = (Ok (PList raw_docs), w0) ->
  let n := length raw_docs in
  let b := Z.to_nat batch_size in
  (forall w',
      process_and_upload env batch_size w = (Ok tt, w') ->
      exists tr,
        w' = w0 ++ tr
        /\ length <$> uploads tr =
           replicate (n / b) b ++ (if (n mod b =? 0)%nat then [] else [n mod b])
        /\ length (uploads tr) = ((n + b - 1) / b)%nat)
  /\ (forall r w',
        process_and_upload env batch_size w = (r, w') ->
        exists tr,
          w' = w0 ++ tr /\ Forall (fun docs => (0 < length docs)%nat) (uploads tr)).
Proof.
  intros HB Hload n b. split.
  - intros w' Hrun.
    rewrite (process_and_upload_loaded _ _ _ _ Hload), process_records_batch_loop in Hrun.
    assert (Hempty : (length (@nil Doc) < Z.to_nat batch_size)%nat) by (simpl; lia).
    destruct (batch_loop_sizes env _ (quiet_embed_record env) _ _ _ _ _ HB Hempty Hrun)
      as (tr & -> & Hsizes).
    exists tr. split; [done|]. split; [exact Hsizes|].
    rewrite <- (length_fmap length), Hsizes. apply ceil_div. lia.
  - intros r w' Hrun.
    rewrite (process_and_upload_loaded _ _ _ _ Hload), process_records_batch_loop in Hrun.
    by eapply batch_loop_uploads_nonempty; [apply quiet_embed_record|].
Qed.

(** C6. The records are handled one after the other and their order is
    kept.  In a run that completes, the trace of the run itself splits into
    the work on the first record, then a flush if one is due, then the work
    on the second record, and so on, with the leftover flush at the end; the
    work on a record is the call of [transform_doc], which returns the
    document, and then the call of [get_embedding] on the chunk of that
    document, which returns the vector; and the lists given to the
    successive uploads, put end to end, are these documents with their
    vectors attached, one for each record, in the order of the records. *)
Theorem process_and_upload_order (batch_size : Z) (raw_docs : list PyVal) (w w0 w' : World) :
  load_docs_from_blob env (BLOB_CONNECTION_STRING env) (BLOB_CONTAINER env) (BLOB_FILE env) w
    = (Ok (PList raw_docs), w0) ->
  process_and_upload env batch_size w = (Ok tt, w') ->
  exists steps w_last fl tr,
    record_steps env w0 raw_docs steps w_last
    /\ w' = w_last ++ fl /\ flush_events fl
    /\ w' = w0 ++ tr
    /\ concat (uploads tr) = attach <$> steps
    /\ length steps = length raw_docs.
Proof.
  intros Hload Hrun.
  rewrite (process_and_upload_loaded _ _ _ _ Hload) in Hrun.
  apply process_records_steps in Hrun
    as (steps & w_last & fl & tr & Hsteps & Hlast & Hfl & Htr & Hup).
  exists steps, w_last, fl, tr. split_and!; try done.
  by eapply record_steps_length.
Qed.

(** C8. Attaching the vector is the only change made to a document of
    [transform_doc].  In a run that completes, take the documents that the
    calls of [transform_doc] returned in this run and the vectors that the
    calls of [get_embedding] returned in this run, record by record (the
    steps of the run on its own trace).  The documents uploaded are, record
    by record, these documents with these vectors: each holds the vector of
    its record under ["text_vector"], and reads under every other key
    ([chunk_id], [parent_id], [main_category], [sub_category], [chunk], and
    any other) as [transform_doc] left it, at the upload. *)
Theorem uploaded_documents_frame (batch_size : Z) (raw_docs : list PyVal) (w w0 w' : World) :
  load_docs_from_blob env (BLOB_CONNECTION_STRING env) (BLOB_CONTAINER env) (BLOB_FILE env) w
    = (Ok (PList raw_docs), w0) ->
  process_and_upload env batch_size w = (Ok tt, w') ->
  exists steps w_last fl tr,
    record_steps env w0 raw_docs steps w_last
    /\ w' = w_last ++ fl /\ flush_events fl
    /\ w' = w0 ++ tr
    /\ Forall2 vector_attached steps (concat (uploads tr))
    /\ Forall2 (fun step doc' =>
                  doc' !! KStr "chunk_id" = fst step !! KStr "chunk_id"
                  /\ doc' !! KStr "parent_id" = fst step !! KStr "parent_id"
                  /\ doc' !! KStr "main_category" = fst step !! KStr "main_category"
                  /\ doc' !! KStr "sub_category" = fst step !! KStr "sub_category"
                  /\ doc' !! KStr "chunk" = fst step !! KStr "chunk")
         steps (concat (uploads tr)).
Proof.
  intros Hload Hrun.
  rewrite (process_and_upload_loaded _ _ _ _ Hload) in Hrun.
  apply process_records_steps in Hrun
    as (steps & w_last & fl & tr & Hsteps & Hlast & Hfl & Htr & Hup).
  exists steps, w_last, fl, tr. split_and!; try done.
  - rewrite Hup. simpl. apply Forall2_fmap_r, Forall_Forall2_diag, Forall_forall.
    intros step _. apply attach_vector_attached.
  - rewrite Hup. simpl. apply Forall2_fmap_r, Forall_Forall2_diag, Forall_forall.
    intros step _. destruct (attach_vector_attached step) as [_ Hframe].
    split_and!; by apply Hframe.
Qed.

End Products.

Section DriverMachine.
Variable env : Env.

Lemma append_record_run raw_doc batch w batch' w' :
  append_record env raw_doc batch w = (Ok batch', w') ->
  exists doc, batch' = batch ++ [doc].
Proof.
  unfold append_record, bind, ret. intros Hrun.
  destruct (embed_record env raw_doc w) as [[doc|e] w1]; simplify_eq. by exists doc.
Qed.

Lemma driver_inv_init batch_size raw_docs :
  (1 <= batch_size)%Z -> driver_inv batch_size (AtRecord raw_docs []).
Proof. intros HB. split; simpl; lia. Qed.

Lemma driver_step_inv batch_size (c : Driver * World) :
  (1 <= batch_size)%Z ->
  driver_inv batch_size (fst c) ->
  driver_inv batch_size (fst (driver_step env batch_size c)).
Proof.
  intros HB [Hle Hlt]. destruct c as [st w]. unfold driver_inv. simpl in *.
  destruct st as [[|raw_doc rest] batch|rest batch|batch|r]; simpl in *.
  - specialize (Hlt eq_refl). split; [lia|done].
  - specialize (Hlt eq_refl).
    destruct (append_record env raw_doc batch w) as [[batch'|e] w1] eqn:Happ; simpl.
    + apply append_record_run in Happ as [doc ->]. split; [|done].
      rewrite length_app. simpl. lia.
    + split; [lia|done].
  - rewrite flush_if_full_run.
    destruct (batch_size <=? Z.of_nat (length batch))%Z eqn:Hfull.
    + destruct (upload_documents _ _ _); simpl; (split; [lia|]); [done|lia].
    + apply Z.leb_gt in Hfull. simpl. split; [lia|done].
  - destruct (upload_leftover env batch w). simpl. split; [lia|done].
  - split; [lia|done].
Qed.

Lemma driver_inv_always batch_size raw_docs w n :
  (1 <= batch_size)%Z ->
  driver_inv batch_size
    (fst (Nat.iter n (driver_step env batch_size) (AtRecord raw_docs [], w))).
Proof.
  intros HB. induction n as [|n IH]; [by apply driver_inv_init|].
  simpl. by apply driver_step_inv.
Qed.

Lemma iter_shift {A} (f : A -> A) n x : Nat.iter n f (f x) = Nat.iter (S n) f x.
Proof. induction n as [|n IH]; [done|]. simpl in *. by rewrite IH. Qed.

(** The machine runs the loop: it halts on what [process_records] returns. *)
Lemma driver_runs batch_size raw_docs : forall batch w,
  exists n,
    Nat.iter n (driver_step env batch_size) (AtRecord raw_docs batch, w) =
    (Halted (fst (process_records env batch_size raw_docs batch w)),
     snd (process_records env batch_size raw_docs batch w)).
Proof.
  induction raw_docs as [|raw_doc rest IH]; intros batch w.
  - exists 2%nat. simpl. by destruct (upload_leftover env batch w).
  - rewrite process_records_cons.
    assert (Hstep1 : driver_step env batch_size (AtRecord (raw_doc :: rest) batch, w) =
                     match append_record env raw_doc batch w with
                     | (Ok batch', w') => (AtCheck rest batch', w')
                     | (Raise e, w') => (Halted (Raise e), w')
                     end) by reflexivity.
    destruct (append_record env raw_doc batch w) as [[batch1|e] w1] eqn:Happ.
    2: { by exists 1%nat. }
    assert (Hstep2 : driver_step env batch_size (AtCheck rest batch1, w1) =
                     match flush_if_full env batch_size batch1 w1 with
                     | (Ok batch', w') => (AtRecord rest batch', w')
                     | (Raise e, w') => (Halted (Raise e), w')
                     end) by reflexivity.
    destruct (flush_if_full env batch_size batch1 w1) as [[batch2|e] w2] eqn:Hflush.
    2: { exists 2%nat. change (Nat.iter 2 ?f ?x) with (f (f x)). by rewrite Hstep1, Hstep2. }
    destruct (IH batch2 w2) as [n Hn]. exists (S (S n)).
    by rewrite <- !iter_shift, Hstep1, Hstep2.
Qed.

(** C7, for a threshold [B >= 1]. At every step of every run the batch holds
    at most [B] documents, and fewer than [B] whenever a record is about to be
    taken; the step that uploads a batch that reached the threshold leaves the
    empty batch; and the steps are those of [process_records]. *)
Theorem batch_size_invariant (batch_size : Z) (raw_docs : list PyVal) (w : World) :
  (1 <= batch_size)%Z ->
  (forall n,
      let st := fst (Nat.iter n (driver_step env batch_size) (AtRecord raw_docs [], w)) in
      (Z.of_nat (length (batch_of st)) <= batch_size)%Z
      /\ (at_record st = true -> (Z.of_nat (length (batch_of st)) < batch_size)%Z))
  /\ (forall rest batch w1 batch' w2,
         (batch_size <= Z.of_nat (length batch))%Z ->
         driver_step env batch_size (AtCheck rest batch, w1) = (AtRecord rest batch', w2) ->
         batch' = [] /\ w2 = w1 ++ [EvUpload batch; EvSleep BatchPause 1])
  /\ (exists n,
         Nat.iter n (driver_step env batch_size) (AtRecord raw_docs [], w) =
         (Halted (fst (process_records env batch_size raw_docs [] w)),
          snd (process_records env batch_size raw_docs [] w))).
Proof.
  intros HB. split; [|split].
  - intros n. by apply driver_inv_always.
  - intros rest batch w1 batch' w2 Hfull Hstep. simpl in Hstep.
    rewrite flush_if_full_run in Hstep.
    apply Z.leb_le in Hfull. rewrite Hfull in Hstep.
    destruct (upload_documents _ _ _); by simplify_eq.
  - apply driver_runs.
Qed.

End DriverMachine.

Section ReportsProperties.
Variable env : Env.

Lemma process_chunks_batch_loop batch_size documents : forall batch w,
  Reports.process_chunks env batch_size documents batch w =
  batch_loop env (Reports.chunk_doc env) batch_size documents batch w.
Proof.
  induction documents as [|raw_doc rest IH]; intros batch w; [done|].
  cbn [Reports.process_chunks batch_loop]. unfold Reports.append_chunk, bind, ret.
  destruct (Reports.chunk_doc env raw_doc w) as [[doc|e] w1]; [|done].
  destruct (flush_if_full env batch_size (batch ++ [doc]) w1) as [[batch'|e] w2]; [|done].
  apply IH.
Qed.

(** X16. The batches of [load_reports.py]: in a run that completes with a
    threshold [B >= 1], the [n] chunks of the PDF are uploaded in [n / B]
    lists of [B] documents, then one list of [n mod B] when that is not zero,
    [ceil (n / B)] uploads in all, none of them empty. *)
Lemma reports_process_and_upload_batches (batch_size : Z) (documents : list LcDocument)
    (w w' : World) :
  (1 <= batch_size)%Z ->
  pdf_chunks env Reports.REPORT_URL = Ok documents ->
  Reports.process_and_upload env batch_size w = (Ok tt, w') ->
  let n := length documents in
  let b := Z.to_nat batch_size in
  exists tr,
    w' = (w ++ [EvLoadPdf Reports.REPORT_URL]) ++ tr
    /\ length <$> uploads tr =
       replicate (n / b) b ++ (if (n mod b =? 0)%nat then [] else [n mod b])
    /\ length (uploads tr) = ((n + b - 1) / b)%nat
    /\ Forall (fun docs => (0 < length docs)%nat) (uploads tr).
Proof.
  intros HB Hpdf Hrun n b.
  unfold Reports.process_and_upload, Reports.load_chunks in Hrun.
  unfold bind at 1 in Hrun. unfold bind at 1 in Hrun. unfold emit, lift in Hrun.
  rewrite Hpdf, process_chunks_batch_loop in Hrun.
  assert (Hempty : (length (@nil Doc) < Z.to_nat batch_size)%nat) by (simpl; lia).
  destruct (batch_loop_sizes env _ (quiet_chunk_doc env) _ _ _ _ _ HB Hempty Hrun)
    as (tr & -> & Hsizes).
  destruct (batch_loop_uploads_nonempty env _ (quiet_chunk_doc env) _ _ _ _ _ _ Hrun)
    as (tr' & Heq & Hne).
  apply app_inv_head in Heq. subst tr'.
  exists tr. split; [done|]. split; [exact Hsizes|]. split; [|done].
  rewrite <- (length_fmap length), Hsizes. apply ceil_div. lia.
Qed.


End ReportsProperties.

Section RetryOutcomes.
Variable env : Env.

Lemma uuid_calls_backoff text a n : uuid_calls (backoff_events env text a n) = 0%nat.
Proof.
  revert a. induction n as [|n IH]; intros a; [done|].
  rewrite backoff_events_S, uuid_calls_app, IH. reflexivity.
Qed.


(** An attempt whose response holds no embedding: the [IndexError] of
    [data[0]] is caught, is no rate-limit signal, and is raised again. *)
Lemma attempt_empty_data text attempt rest w :
  embeddings_create env (embed_calls w) text = RespOk [] ->
  get_embedding_attempts env text (attempt :: rest) w =
  (Raise (MkExn IndexError "list index out of range"),
   w ++ [EvEmbed (AZURE_OPENAI_DEPLOYMENT env) text]).
Proof.
  intros Hok. cbn [get_embedding_attempts].
  unfold try_except, bind, create_embedding. by rewrite Hok.
Qed.

(** The four ways the attempts can end, whatever the endpoint answers:
    after [N] retried attempts, either none is left, or the next call returns
    a vector, or it fails with an error the code does not retry, or it is
    retried as attempt 34 and the sleep is refused. *)
Lemma attempts_outcomes text n : forall a w,
  (a <= 34)%nat ->
  exists N,
    (N <= n)%nat /\ (a + N <= 34)%nat
    /\ ((N = n
         /\ get_embedding_attempts env text (Z.of_nat <$> seq a n) w
            = (Raise ExhaustedRetries, w ++ backoff_events env text a N))
        \/ (N < n)%nat
           /\ ((exists v data,
                   embeddings_create env (embed_calls w + N) text = RespOk (v :: data)
                   /\ get_embedding_attempts env text (Z.of_nat <$> seq a n) w
                      = (Ok v, w ++ backoff_events env text a N
                                 ++ [EvEmbed (AZURE_OPENAI_DEPLOYMENT env) text]))
               \/ (exists e,
                      is_rate_limit e = false
                      /\ (embeddings_create env (embed_calls w + N) text = RespRaise e
                          \/ (embeddings_create env (embed_calls w + N) text = RespOk []
                              /\ e = MkExn IndexError "list index out of range"))
                      /\ get_embedding_attempts env text (Z.of_nat <$> seq a n) w
                         = (Raise e, w ++ backoff_events env text a N
                                       ++ [EvEmbed (AZURE_OPENAI_DEPLOYMENT env) text]))
               \/ ((a + N = 34)%nat
                   /\ fails_with_429_text env text (embed_calls w + N)
                   /\ get_embedding_attempts env text (Z.of_nat <$> seq a n) w
                      = (Raise SleepOverflow,
                         w ++ backoff_events env text a N
                           ++ [EvEmbed (AZURE_OPENAI_DEPLOYMENT env) text])))).
Proof.
  induction n as [|n IH]; intros a w Ha.
  - exists 0%nat. split; [lia|]. split; [lia|]. left. split; [done|]. by rewrite app_nil_r.
  - cbn [seq fmap list_fmap].
    change (list_fmap nat Z Z.of_nat (seq (S a) n)) with (Z.of_nat <$> seq (S a) n).
    destruct (embeddings_create env (embed_calls w) text) as [[|v data]|e] eqn:Hresp.
    + exists 0%nat. rewrite !Nat.add_0_r, Hresp. split; [lia|]. split; [lia|].
      right. split; [lia|]. right. left.
      exists (MkExn IndexError "list index out of range").
      split; [done|]. split; [by right|by apply attempt_empty_data].
    + exists 0%nat. rewrite !Nat.add_0_r, Hresp. split; [lia|]. split; [lia|].
      right. split; [lia|]. left.
      exists v, data. split; [done|]. by eapply attempt_succeeds.
    + destruct (is_rate_limit e) eqn:H429.
      * destruct (decide (a = 34)) as [->|Hne].
        { exists 0%nat. rewrite !Nat.add_0_r. split; [lia|]. split; [lia|].
          right. split; [lia|]. right. right. split; [done|].
          split; [by exists e|]. apply attempt_overflows. by exists e. }
        rewrite attempt_rate_limited by (lia || by exists e).
        destruct (IH (S a) (w ++ [EvEmbed (AZURE_OPENAI_DEPLOYMENT env) text;
                                  EvSleep Backoff (2 ^ Z.of_nat a)]) ltac:(lia))
          as (N & HN & Hlate & Hcase).
        rewrite embed_calls_app in Hcase.
        change (embed_calls [EvEmbed (AZURE_OPENAI_DEPLOYMENT env) text;
                             EvSleep Backoff (2 ^ Z.of_nat a)]) with 1%nat in Hcase.
        replace (embed_calls w + 1 + N)%nat with (embed_calls w + S N)%nat in Hcase by lia.
        exists (S N). split; [lia|]. split; [lia|]. rewrite backoff_events_S.
        destruct Hcase
          as [[-> Hrun]|[HNn [(v & data & Hans & Hrun)
                             |[(e' & He' & Hans & Hrun)|(H34 & Hans & Hrun)]]]].
        -- left. split; [done|]. by rewrite Hrun, <- !app_assoc.
        -- right. split; [lia|]. left. exists v, data. split; [done|].
           by rewrite Hrun, <- !app_assoc.
        -- right. split; [lia|]. right. left. exists e'. split; [done|]. split; [done|].
           by rewrite Hrun, <- !app_assoc.
        -- right. split; [lia|]. right. right. split; [lia|]. split; [done|].
           by rewrite Hrun, <- !app_assoc.
      * exists 0%nat. rewrite !Nat.add_0_r, Hresp. split; [lia|]. split; [lia|].
        right. split; [lia|]. right. left.
        exists e. split; [done|]. split; [by left|]. by apply attempt_fails.
Qed.

Lemma total_backoff a n :
  total ((fun k => 2 ^ Z.of_nat k)%Z <$> seq a n) = (2 ^ Z.of_nat a * (2 ^ Z.of_nat n - 1))%Z.
Proof.
  revert a. induction n as [|n IH]; intros a; [simpl; lia|].
  cbn [seq fmap list_fmap total foldr].
  change (foldr Z.add 0%Z (list_fmap nat Z (fun k => 2 ^ Z.of_nat k)%Z (seq (S a) n)))
    with (total ((fun k => 2 ^ Z.of_nat k)%Z <$> seq (S a) n)).
  rewrite IH. rewrite !Nat2Z.inj_succ, !Z.pow_succ_r by lia. lia.
Qed.



(** X2. The time one call of [get_embedding] sleeps is at most
    [2^max_retries - 1] seconds (31 seconds with the default of 5), whatever
    the endpoint answers. *)
Theorem get_embedding_sleep_bound (text : PyVal) (max_retries : Z) (w : World) :
  exists tr,
    snd (get_embedding env text max_retries w) = w ++ tr
    /\ (0 <= total (sleeps Backoff tr) <= 2 ^ Z.max 0 max_retries - 1)%Z.
Proof.
  unfold get_embedding, range.
  destruct (attempts_outcomes text (Z.to_nat max_retries) 0 w ltac:(lia))
    as (N & HN & Hlate & Hcase).
  assert (Hpow : (1 <= 2 ^ Z.of_nat N <= 2 ^ Z.max 0 max_retries)%Z).
  { split; [apply (Z.pow_le_mono_r 2 0); lia|apply Z.pow_le_mono_r; lia]. }
  assert (Hsum : forall tr,
             sleeps Backoff tr = (fun k => 2 ^ Z.of_nat k)%Z <$> seq 0 N ->
             (0 <= total (sleeps Backoff tr) <= 2 ^ Z.max 0 max_retries - 1)%Z).
  { intros tr ->. rewrite total_backoff. simpl. lia. }
  destruct Hcase
    as [[HNm Hrun]|[HNm [(v & data & Hans & Hrun)
                        |[(e & He & Hans & Hrun)|(H34 & Hans & Hrun)]]]];
    rewrite Hrun; simpl;
    eexists; (split; [reflexivity|]); apply Hsum;
    rewrite ?sleeps_app, sleeps_backoff; simpl; by rewrite ?app_nil_r.
Qed.

(** X3. A response that holds no embedding makes [get_embedding] raise the
    [IndexError] of [data[0]] at once: the [except] branch catches it, finds
    no rate-limit signal in it, and raises it again without sleeping or
    retrying, whatever the number of attempts allowed. *)
Theorem get_embedding_empty_data (text : PyVal) (max_retries : Z) (w : World) :
  (1 <= max_retries)%Z ->
  embeddings_create env (embed_calls w) text = RespOk [] ->
  get_embedding env text max_retries w =
  (Raise (MkExn IndexError "list index out of range"),
   w ++ [EvEmbed (AZURE_OPENAI_DEPLOYMENT env) text]).
Proof.
  intros Hm Hresp. unfold get_embedding, range.
  destruct (Z.to_nat max_retries) as [|n] eqn:Hn; [lia|].
  cbn [seq fmap list_fmap]. by apply attempt_empty_data.
Qed.

End RetryOutcomes.

Section LoaderEdges.
Variable env : Env.

(** X4. A failure of the download is raised as it is, and bytes that are not
    UTF-8 raise [UnicodeDecodeError], in both cases whatever the name of the
    blob: the suffix is looked at only after the bytes are decoded. *)
Theorem load_docs_from_blob_failures (conn container name : string) (w : World) :
  (forall e,
      download_blob env conn container name = Raise e ->
      load_docs_from_blob env conn container name w
      = (Raise e, w ++ [EvDownload container name]))
  /\ (forall payload,
        download_blob env conn container name = Ok payload ->
        utf8_valid (Byte.to_N <$> payload) = false ->
        load_docs_from_blob env conn container name w
        = (Raise (MkExn UnicodeDecodeError "'utf-8' codec can't decode byte"),
           w ++ [EvDownload container name])).
Proof.
  split.
  - intros e Hdl. unfold load_docs_from_blob, download, bind, emit, lift. by rewrite Hdl.
  - intros payload Hdl Hbad.
    unfold load_docs_from_blob, download, bind, emit, lift, decode_utf8.
    by rewrite Hdl, Hbad.
Qed.

(** X5. What a [.json] blob loads to is not checked to be a list: a text that
    parses to an object or to a string is returned as that dict or str, and a
    text that parses to a number, a boolean or [null] makes the function
    raise a [TypeError], from the [len(docs)] of its print. *)
Theorem load_docs_from_blob_json_value (conn container name : string)
    (payload : list Byte.byte) (text : string) (v : PyVal) (w : World) :
  download_blob env conn container name = Ok payload ->
  decode_utf8 payload = Ok text ->
  endswith name ".csv" = false ->
  endswith name ".json" = true ->
  json_loads env text = Ok v ->
  match v with
  | PStr _ | PList _ | PDict _ =>
      load_docs_from_blob env conn container name w = (Ok v, w ++ [EvDownload container name])
  | _ =>
      load_docs_from_blob env conn container name w
      = (Raise (MkExn TypeError ("object of type '" +:+ py_type_name v +:+ "' has no len()")),
         w ++ [EvDownload container name])
  end.
Proof.
  intros Hdl Hdec Hcsv Hjson Hv.
  rewrite (load_docs_from_blob_decoded _ _ _ _ _ _ _ Hdl Hdec), Hcsv, Hjson.
  unfold bind, lift, ret. rewrite Hv. by destruct v.
Qed.

Lemma py_len_iter v n :
  py_len v = Ok n -> exists items, py_iter v = Ok items /\ length items = n.
Proof.
  destruct v; simpl; intros ?; simplify_eq; eexists; (split; [done|]).
  - by rewrite length_fmap.
  - done.
  - by rewrite !length_fmap, length_map_to_list.
Qed.

Lemma load_docs_from_blob_sized conn container name w v w0 :
  load_docs_from_blob env conn container name w = (Ok v, w0) ->
  exists n, py_len v = Ok n.
Proof.
  unfold load_docs_from_blob. unfold bind at 1.
  destruct (download env conn container name w) as [[payload|e] w1]; [|done].
  unfold bind at 1, lift at 1. destruct (decode_utf8 payload) as [text|e]; [|done].
  destruct (endswith name ".csv"); [|destruct (endswith name ".json")].
  - unfold bind, lift, ret. destruct (csv_reader text) as [records|e]; [|done].
    simpl. intros ?; simplify_eq. by eexists.
  - unfold bind, lift, ret. destruct (json_loads env text) as [docs|e]; [|done].
    destruct (py_len docs) as [n|e] eqn:Hlen; [|done].
    intros ?; simplify_eq. by exists n.
  - done.
Qed.

(** X6. A value the loader returned can always be iterated, and has as many
    items as the loader counted: the [enumerate] of [process_and_upload]
    raises nothing, and the run is the loop over these items. *)
Theorem process_and_upload_iterates (batch_size : Z) (v : PyVal) (w w0 : World) :
  load_docs_from_blob env (BLOB_CONNECTION_STRING env) (BLOB_CONTAINER env) (BLOB_FILE env) w
    = (Ok v, w0) ->
  exists items,
    py_iter v = Ok items
    /\ py_len v = Ok (length items)
    /\ process_and_upload env batch_size w = process_records env batch_size items [] w0.
Proof.
  intros Hload.
  destruct (load_docs_from_blob_sized _ _ _ _ _ _ Hload) as [n Hn].
  destruct (py_len_iter _ _ Hn) as (items & Hiter & Hlen).
  exists items. split; [done|]. split; [by rewrite Hlen|].
  unfold process_and_upload, bind at 1. rewrite Hload.
  unfold bind, lift. by rewrite Hiter.
Qed.

End LoaderEdges.

Section RecordEdges.
Variable env : Env.

(** X7. When the [parent_id] of a record is a string, as every cell of a CSV
    row is, the document carries that very string, empty or not: the
    [or ""] of line 97 changes nothing on strings.  So does every document
    [transform_doc] returns for the record, and it returns one whenever the
    record's [name] can be written by the f-string. *)
Theorem transform_doc_string_parent_id (d : PyDict) (s : string) (w : World) :
  d !! KStr "parent_id" = Some (PStr s) ->
  (forall doc w',
      transform_doc env (PDict d) w = (Ok doc, w') ->
      doc !! KStr "parent_id" = Some (PStr s))
  /\ (forall title,
        py_format env (dict_get d "name" (PStr "")) = Ok title ->
        exists doc,
          transform_doc env (PDict d) w = (Ok doc, w ++ [EvUuid (uuid4 env (uuid_calls w))])
          /\ doc !! KStr "parent_id" = Some (PStr s)).
Proof.
  intros Hs.
  assert (Hkept : py_or (dict_get d "parent_id" (PStr "")) (PStr "") = PStr s).
  { unfold dict_get, py_or. rewrite Hs. simpl. destruct (String.eqb_spec s ""); by subst. }
  split.
  - intros doc w' Hrun.
    destruct (transform_doc_returns _ _ _ _ _ Hrun) as [title Hfmt].
    rewrite (transform_doc_run _ _ _ _ Hfmt) in Hrun. simplify_eq.
    rewrite lookup_insert_ne, lookup_insert_eq by done. by rewrite Hkept.
  - intros title Hfmt. eexists. split; [by apply transform_doc_run|].
    rewrite lookup_insert_ne, lookup_insert_eq by done. by rewrite Hkept.
Qed.

(** X8. A record that is not a dict stops the run where it stands:
    [transform_doc] draws its identifier, then raises the [AttributeError] of
    the missing [get]; no embedding is asked for it, the records after it are
    not touched, and the documents waiting in the batch are not uploaded. *)
Theorem process_records_not_a_dict (batch_size : Z) (raw_doc : PyVal) (rest : list PyVal)
    (batch : list Doc) (w : World) :
  is_dict raw_doc = false ->
  process_records env batch_size (raw_doc :: rest) batch w =
  (Raise (MkExn AttributeError
            ("'" +:+ py_type_name raw_doc +:+ "' object has no attribute 'get'")),
   w ++ [EvUuid (uuid4 env (uuid_calls w))]).
Proof.
  intros Hdict. rewrite process_records_cons.
  by destruct raw_doc.
Qed.

(** X9. The [transform_doc] of [load_reports.py] is the one of
    [load_products.py] without the two category fields: on every value the
    two raise the same error or return documents that differ only by
    [main_category] and [sub_category], after the same draw. *)
Theorem reports_transform_doc_projection (raw_doc : PyVal) (w : World) :
  Reports.transform_doc env raw_doc w =
  match transform_doc env raw_doc w with
  | (Ok doc, w') =>
      (Ok (delete (KStr "main_category") (delete (KStr "sub_category") doc)), w')
  | (Raise e, w') => (Raise e, w')
  end.
Proof.
  destruct raw_doc as [| | | | | |d]; try reflexivity.
  unfold Reports.transform_doc, transform_doc, bind, new_uuid, get_method, ret, lift.
  by destruct (py_format env (dict_get d "name" (PStr ""))).
Qed.

End RecordEdges.

Section BatchLoopEdges.
Variable env : Env.
Context {R : Type} (produce : R -> M Doc).
Hypothesis produce_quiet : forall r, quiet (produce r).

Lemma pauses_record_events (tr : World) :
  Forall (fun e => is_record_event e = true) tr -> sleeps BatchPause tr = [].
Proof.
  induction 1 as [|e tr He _ IH]; [done|].
  destruct e as [| | | |[]|]; simpl in *; done.
Qed.

(** What a run of [produce] adds to the trace holds no upload and no pause. *)
Lemma produce_adds r w res w1 :
  produce r w = (res, w1) ->
  exists tr, w1 = w ++ tr /\ uploads tr = [] /\ sleeps BatchPause tr = [].
Proof.
  intros Hrun. destruct (produce_quiet r w) as (tr & Hw & Hrec & _).
  rewrite Hrun in Hw. simpl in Hw. subst w1. exists tr.
  split; [done|]. split; [by apply uploads_record_events|by apply pauses_record_events].
Qed.

(** With a threshold of at least one, however the run ends: every upload
    holds at least one document and at most the threshold. *)
Lemma batch_loop_upload_bounds batch_size items : forall batch w r w',
  (1 <= batch_size)%Z ->
  (length batch < Z.to_nat batch_size)%nat ->
  batch_loop env produce batch_size items batch w = (r, w') ->
  exists tr,
    w' = w ++ tr
    /\ Forall (fun docs => (0 < length docs <= Z.to_nat batch_size)%nat) (uploads tr).
Proof.
  induction items as [|item rest IH]; intros batch w r w' HB Hlen Hrun.
  - cbn [batch_loop] in Hrun. rewrite upload_leftover_run in Hrun.
    destruct batch as [|d batch]; simplify_eq.
    + exists []. by rewrite app_nil_r.
    + eexists. split; [done|]. simpl. constructor; [simpl in *; lia|constructor].
  - cbn [batch_loop] in Hrun. unfold bind at 1 in Hrun.
    destruct (produce item w) as [[doc|e] w1] eqn:Hprod;
      destruct (produce_adds _ _ _ _ Hprod) as (tr1 & -> & Hup1 & _).
    2: { simplify_eq. exists tr1. split; [done|]. rewrite Hup1. constructor. }
    unfold bind at 1 in Hrun. rewrite flush_if_full_run in Hrun.
    assert (Hlen' : length (batch ++ [doc]) = S (length batch))
      by (rewrite length_app; simpl; lia).
    destruct (batch_size <=? _)%Z eqn:Hfull.
    + destruct (upload_documents _ _ _).
      * simplify_eq. eexists. split; [by rewrite <- app_assoc|].
        rewrite uploads_app, Hup1. simpl. constructor; [lia|constructor].
      * apply IH in Hrun as (tr & -> & Hb); [|done|simpl; lia].
        eexists. split; [by rewrite <- !app_assoc|].
        rewrite !uploads_app, Hup1. simpl. constructor; [lia|done].
    + apply Z.leb_gt in Hfull.
      apply IH in Hrun as (tr & -> & Hb); [|done|lia].
      eexists. split; [by rewrite <- !app_assoc|].
      by rewrite !uploads_app, Hup1.
Qed.

(** With a threshold of at least one and an index that accepts every upload,
    a run that ends with an error has uploaded full batches only: the
    documents waiting in the batch are lost. *)
Lemma batch_loop_abort batch_size items : forall batch w e w',
  (1 <= batch_size)%Z ->
  (length batch < Z.to_nat batch_size)%nat ->
  (forall k docs, upload_documents env k docs = None) ->
  batch_loop env produce batch_size items batch w = (Raise e, w') ->
  exists tr,
    w' = w ++ tr
    /\ Forall (fun docs => length docs = Z.to_nat batch_size) (uploads tr).
Proof.
  induction items as [|item rest IH]; intros batch w e w' HB Hlen Hacc Hrun.
  - cbn [batch_loop] in Hrun. rewrite upload_leftover_run in Hrun.
    destruct batch as [|d batch]; [done|]. rewrite Hacc in Hrun. done.
  - cbn [batch_loop] in Hrun. unfold bind at 1 in Hrun.
    destruct (produce item w) as [[doc|e1] w1] eqn:Hprod;
      destruct (produce_adds _ _ _ _ Hprod) as (tr1 & -> & Hup1 & _).
    2: { simplify_eq. exists tr1. split; [done|]. rewrite Hup1. constructor. }
    unfold bind at 1 in Hrun. rewrite flush_if_full_run, Hacc in Hrun.
    assert (Hlen' : length (batch ++ [doc]) = S (length batch))
      by (rewrite length_app; simpl; lia).
    destruct (batch_size <=? _)%Z eqn:Hfull.
    + apply IH in Hrun as (tr & -> & Hb); [|done|simpl; lia|done].
      eexists. split; [by rewrite <- !app_assoc|].
      rewrite !uploads_app, Hup1. simpl. constructor; [lia|done].
    + apply Z.leb_gt in Hfull.
      apply IH in Hrun as (tr & -> & Hb); [|done|lia|done].
      eexists. split; [by rewrite <- !app_assoc|].
      by rewrite !uploads_app, Hup1.
Qed.

(** With a threshold of zero or less, a run that completes uploads every
    document alone, and pauses after each. *)
Lemma batch_loop_singletons batch_size items : forall w w',
  (batch_size <= 0)%Z ->
  batch_loop env produce batch_size items [] w = (Ok tt, w') ->
  exists tr,
    w' = w ++ tr
    /\ length <$> uploads tr = replicate (length items) 1%nat
    /\ sleeps BatchPause tr = replicate (length items) 1%Z.
Proof.
  induction items as [|item rest IH]; intros w w' HB Hrun.
  - cbn [batch_loop] in Hrun. rewrite upload_leftover_run in Hrun. simplify_eq.
    exists []. by rewrite app_nil_r.
  - cbn [batch_loop] in Hrun. unfold bind at 1 in Hrun.
    destruct (produce item w) as [[doc|e1] w1] eqn:Hprod; [|done].
    destruct (produce_adds _ _ _ _ Hprod) as (tr1 & -> & Hup1 & Hp1).
    unfold bind at 1 in Hrun. rewrite flush_if_full_run in Hrun.
    destruct (batch_size <=? _)%Z eqn:Hfull; [|apply Z.leb_gt in Hfull; lia].
    destruct (upload_documents _ _ _); [done|].
    apply IH in Hrun as (tr & -> & Hsz & Hps); [|done].
    eexists. split; [by rewrite <- !app_assoc|].
    rewrite !uploads_app, !sleeps_app, Hup1, Hp1. cbn [uploads sleeps app].
    by rewrite fmap_cons, Hsz, Hps.
Qed.

(** With a threshold of at least one, a run that completes pauses one second
    after each full batch, and not after the leftover. *)
Lemma batch_loop_pauses batch_size items : forall batch w w',
  (1 <= batch_size)%Z ->
  (length batch < Z.to_nat batch_size)%nat ->
  batch_loop env produce batch_size items batch w = (Ok tt, w') ->
  exists tr,
    w' = w ++ tr
    /\ sleeps BatchPause tr
       = replicate ((length batch + length items) / Z.to_nat batch_size) 1%Z.
Proof.
  induction items as [|item rest IH]; intros batch w w' HB Hlen Hrun.
  - cbn [batch_loop] in Hrun. rewrite upload_leftover_run in Hrun.
    simpl. rewrite Nat.add_0_r, Nat.div_small by done.
    destruct batch as [|d batch]; simplify_eq.
    + exists []. by rewrite app_nil_r.
    + by eexists.
  - cbn [batch_loop] in Hrun. unfold bind at 1 in Hrun.
    destruct (produce item w) as [[doc|e1] w1] eqn:Hprod; [|done].
    destruct (produce_adds _ _ _ _ Hprod) as (tr1 & -> & Hup1 & Hp1).
    unfold bind at 1 in Hrun. rewrite flush_if_full_run in Hrun.
    assert (Hlen' : length (batch ++ [doc]) = S (length batch))
      by (rewrite length_app; simpl; lia).
    destruct (batch_size <=? _)%Z eqn:Hfull.
    + destruct (upload_documents _ _ _); [done|].
      apply IH in Hrun as (tr & -> & Hps); [|done|simpl; lia].
      eexists. split; [by rewrite <- !app_assoc|].
      rewrite !sleeps_app, Hp1. simpl. rewrite Hps.
      assert (S (length batch) = Z.to_nat batch_size) as Heq by lia.
      replace (length batch + S (length rest))%nat
        with (1 * Z.to_nat batch_size + length rest)%nat by lia.
      rewrite Nat.div_add_l by lia. reflexivity.
    + apply Z.leb_gt in Hfull.
      apply IH in Hrun as (tr & -> & Hps); [|done|lia].
      eexists. split; [by rewrite <- !app_assoc|].
      rewrite !sleeps_app, Hp1. simpl. rewrite Hps, Hlen'. f_equal. f_equal. simpl. lia.
Qed.

End BatchLoopEdges.

Section DriverEdges.
Variable env : Env.

(** X10. With a threshold [B >= 1], however the run ends, every upload of
    either script holds at least one document and at most [B]: no request to
    the index is larger than the batch size. *)
Theorem upload_size_bounds (batch_size : Z) (raw_docs : list PyVal)
    (documents : list LcDocument) (w : World) :
  (1 <= batch_size)%Z ->
  (exists tr,
      snd (process_records env batch_size raw_docs [] w) = w ++ tr
      /\ Forall (fun docs => (0 < length docs <= Z.to_nat batch_size)%nat) (uploads tr))
  /\ (exists tr,
        snd (Reports.process_chunks env batch_size documents [] w) = w ++ tr
        /\ Forall (fun docs => (0 < length docs <= Z.to_nat batch_size)%nat) (uploads tr)).
Proof.
  intros HB.
  assert (Hempty : (length (@nil Doc) < Z.to_nat batch_size)%nat) by (simpl; lia).
  split.
  - destruct (process_records env batch_size raw_docs [] w) as [r w'] eqn:Hrun.
    rewrite process_records_batch_loop in Hrun.
    destruct (batch_loop_upload_bounds env _ (quiet_embed_record env) _ _ _ _ _ _ HB Hempty Hrun)
      as (tr & -> & Hb).
    by exists tr.
  - destruct (Reports.process_chunks env batch_size documents [] w) as [r w'] eqn:Hrun.
    rewrite process_chunks_batch_loop in Hrun.
    destruct (batch_loop_upload_bounds env _ (quiet_chunk_doc env) _ _ _ _ _ _ HB Hempty Hrun)
      as (tr & -> & Hb).
    by exists tr.
Qed.

(** X11. With a threshold [B >= 1] and an index that accepts every upload, a
    run of either script that ends with an error has made uploads of exactly
    [B] documents only: what was embedded since the last full batch is never
    uploaded. *)
Theorem abort_loses_partial_batch (batch_size : Z) (raw_docs : list PyVal)
    (documents : list LcDocument) (w : World) :
  (1 <= batch_size)%Z ->
  (forall k docs, upload_documents env k docs = None) ->
  (forall e w',
      process_records env batch_size raw_docs [] w = (Raise e, w') ->
      exists tr,
        w' = w ++ tr
        /\ Forall (fun docs => length docs = Z.to_nat batch_size) (uploads tr))
  /\ (forall e w',
        Reports.process_chunks env batch_size documents [] w = (Raise e, w') ->
        exists tr,
          w' = w ++ tr
          /\ Forall (fun docs => length docs = Z.to_nat batch_size) (uploads tr)).
Proof.
  intros HB Hacc.
  assert (Hempty : (length (@nil Doc) < Z.to_nat batch_size)%nat) by (simpl; lia).
  split; intros e w' Hrun.
  - rewrite process_records_batch_loop in Hrun.
    by eapply batch_loop_abort; [apply quiet_embed_record| | | |exact Hrun].
  - rewrite process_chunks_batch_loop in Hrun.
    by eapply batch_loop_abort; [apply quiet_chunk_doc| | | |exact Hrun].
Qed.

(** X12. With a threshold of zero or less, a run of either script that
    completes uploads every document alone, one upload and one pause of a
    second for each record. *)
Theorem nonpositive_batch_size (batch_size : Z) (raw_docs : list PyVal)
    (documents : list LcDocument) (w : World) :
  (batch_size <= 0)%Z ->
  (forall w',
      process_records env batch_size raw_docs [] w = (Ok tt, w') ->
      exists tr,
        w' = w ++ tr
        /\ length <$> uploads tr = replicate (length raw_docs) 1%nat
        /\ sleeps BatchPause tr = replicate (length raw_docs) 1%Z)
  /\ (forall w',
        Reports.process_chunks env batch_size documents [] w = (Ok tt, w') ->
        exists tr,
          w' = w ++ tr
          /\ length <$> uploads tr = replicate (length documents) 1%nat
          /\ sleeps BatchPause tr = replicate (length documents) 1%Z).
Proof.
  intros HB. split; intros w' Hrun.
  - rewrite process_records_batch_loop in Hrun.
    by eapply batch_loop_singletons; [apply quiet_embed_record| |exact Hrun].
  - rewrite process_chunks_batch_loop in Hrun.
    by eapply batch_loop_singletons; [apply quiet_chunk_doc| |exact Hrun].
Qed.

(** X13. With a threshold [B >= 1], a run of either script that completes on
    [n] records pauses [floor(n/B)] times, one second each: once after each
    full batch, and not after the leftover. *)
Theorem batch_pauses (batch_size : Z) (raw_docs : list PyVal)
    (documents : list LcDocument) (w : World) :
  (1 <= batch_size)%Z ->
  (forall w',
      process_records env batch_size raw_docs [] w = (Ok tt, w') ->
      exists tr,
        w' = w ++ tr
        /\ sleeps BatchPause tr = replicate (length raw_docs / Z.to_nat batch_size) 1%Z)
  /\ (forall w',
        Reports.process_chunks env batch_size documents [] w = (Ok tt, w') ->
        exists tr,
          w' = w ++ tr
          /\ sleeps BatchPause tr = replicate (length documents / Z.to_nat batch_size) 1%Z).
Proof.
  intros HB.
  assert (Hempty : (length (@nil Doc) < Z.to_nat batch_size)%nat) by (simpl; lia).
  split; intros w' Hrun.
  - rewrite process_records_batch_loop in Hrun.
    by eapply (batch_loop_pauses env _ (quiet_embed_record env) _ _ [] _ _ HB Hempty).
  - rewrite process_chunks_batch_loop in Hrun.
    by eapply (batch_loop_pauses env _ (quiet_chunk_doc env) _ _ [] _ _ HB Hempty).
Qed.

End DriverEdges.

Section FreshIds.
Variable env : Env.

(** [get_embedding] draws no identifier. *)
Lemma get_embedding_uuid_calls text max_retries w :
  uuid_calls (snd (get_embedding env text max_retries w)) = uuid_calls w.
Proof.
  unfold get_embedding, range.
  destruct (attempts_outcomes env text (Z.to_nat max_retries) 0 w ltac:(lia))
    as (N & HN & Hlate & Hcase).
  destruct Hcase
    as [[HNm Hrun]|[HNm [(v & data & Hans & Hrun)
                        |[(e & He & Hans & Hrun)|(H34 & Hans & Hrun)]]]];
    rewrite Hrun; simpl;
    rewrite !uuid_calls_app, uuid_calls_backoff; simpl; unfold uuid_calls; simpl; lia.
Qed.

(** A record, or a chunk, gets the next identifier of the generator, and
    takes one draw. *)
Lemma embed_record_id raw_doc w doc w' :
  embed_record env raw_doc w = (Ok doc, w') ->
  doc !! KStr "chunk_id" = Some (PStr (uuid4 env (uuid_calls w)))
  /\ uuid_calls w' = S (uuid_calls w).
Proof.
  intros Hrun.
  apply embed_record_step in Hrun as (doc0 & chunk & embedding & w1 & Htr & Hchunk & Hemb & ->).
  destruct raw_doc as [| | | | | |d]; try done.
  destruct (transform_doc_returns _ _ _ _ _ Htr) as [title Hfmt].
  rewrite (transform_doc_run _ _ _ _ Hfmt) in Htr. simplify_eq.
  pose proof (get_embedding_uuid_calls chunk 5
                (w ++ [EvUuid (uuid4 env (uuid_calls w))])) as Hcalls.
  rewrite Hemb in Hcalls. split.
  - unfold attach. simpl. by rewrite lookup_insert_ne, lookup_insert_eq.
  - simpl in Hcalls. rewrite Hcalls, uuid_calls_app. unfold uuid_calls. simpl. lia.
Qed.

Lemma chunk_doc_id raw_doc w doc w' :
  Reports.chunk_doc env raw_doc w = (Ok doc, w') ->
  doc !! KStr "chunk_id" = Some (PStr (uuid4 env (uuid_calls w)))
  /\ uuid_calls w' = S (uuid_calls w).
Proof.
  unfold Reports.chunk_doc. unfold bind at 1, new_uuid. unfold bind at 1, subscript.
  destruct (metadata raw_doc !! KStr "source") as [title|]; [|done].
  unfold ret at 1. unfold bind, ret.
  pose proof (get_embedding_uuid_calls (PStr (page_content raw_doc)) 5
                (w ++ [EvUuid (uuid4 env (uuid_calls w))])) as Hcalls.
  destruct (get_embedding env _ 5 _) as [[embedding|e] w1]; [|done].
  intros ?; simplify_eq. split.
  - by rewrite lookup_insert_eq.
  - simpl in Hcalls. rewrite Hcalls, uuid_calls_app. unfold uuid_calls. simpl. lia.
Qed.

Context {R : Type} (produce : R -> M Doc).
Hypothesis produce_id : forall r w doc w',
  produce r w = (Ok doc, w') ->
  doc !! KStr "chunk_id" = Some (PStr (uuid4 env (uuid_calls w)))
  /\ uuid_calls w' = S (uuid_calls w).

Lemma run_all_ids items : forall w docs w',
  run_all produce items w = (Ok docs, w') ->
  (fun doc : Doc => doc !! KStr "chunk_id") <$> docs
  = (fun k => Some (PStr (uuid4 env k))) <$> seq (uuid_calls w) (length items).
Proof.
  induction items as [|item rest IH]; intros w docs w' Hrun.
  - unfold run_all, ret in Hrun. by simplify_eq.
  - cbn [run_all] in Hrun. unfold bind at 1 in Hrun.
    destruct (produce item w) as [[doc|e] w1] eqn:Hdoc; [|done].
    unfold bind in Hrun.
    destruct (run_all produce rest w1) as [[docs'|e] w2] eqn:Hrest; [|done].
    unfold ret in Hrun. simplify_eq.
    destruct (produce_id _ _ _ _ Hdoc) as [Hid Hcalls].
    apply IH in Hrest. rewrite Hcalls in Hrest.
    cbn [length seq]. by rewrite !fmap_cons, Hid, Hrest.
Qed.

End FreshIds.

Section FreshIdsOfRuns.
Variable env : Env.

Lemma ids_distinct (c n : nat) :
  Inj (=) (=) (uuid4 env) ->
  NoDup ((fun k => Some (PStr (uuid4 env k))) <$> seq c n).
Proof.
  intros Hinj. apply NoDup_fmap_2; [|apply NoDup_seq].
  intros k1 k2 Heq. simplify_eq. by apply Hinj.
Qed.

(** X14. In a run of either script that completes, the documents uploaded
    carry, in order, the successive identifiers of the generator, one draw
    for each record; so the [chunk_id]s of one run are pairwise distinct as
    soon as the generator does not repeat itself. *)
Theorem chunk_ids_fresh (batch_size : Z) (raw_docs : list PyVal)
    (documents : list LcDocument) (w : World) :
  (forall w',
      process_records env batch_size raw_docs [] w = (Ok tt, w') ->
      exists tr,
        w' = w ++ tr
        /\ (fun doc : Doc => doc !! KStr "chunk_id") <$> concat (uploads tr)
           = (fun k => Some (PStr (uuid4 env k))) <$> seq (uuid_calls w) (length raw_docs)
        /\ (Inj (=) (=) (uuid4 env) ->
            NoDup ((fun doc : Doc => doc !! KStr "chunk_id") <$> concat (uploads tr))))
  /\ (forall w',
        Reports.process_chunks env batch_size documents [] w = (Ok tt, w') ->
        exists tr,
          w' = w ++ tr
          /\ (fun doc : Doc => doc !! KStr "chunk_id") <$> concat (uploads tr)
             = (fun k => Some (PStr (uuid4 env k))) <$> seq (uuid_calls w) (length documents)
          /\ (Inj (=) (=) (uuid4 env) ->
              NoDup ((fun doc : Doc => doc !! KStr "chunk_id") <$> concat (uploads tr)))).
Proof.
  split; intros w' Hrun.
  - rewrite process_records_batch_loop in Hrun.
    destruct (batch_loop_uploads_nonempty env _ (quiet_embed_record env) _ _ _ _ _ _ Hrun)
      as (tr & -> & _).
    destruct (batch_loop_order env _ (quiet_embed_record env) _ _ _ _ _ Hrun)
      as (docs & Hall & Hup).
    rewrite uploads_app, concat_app in Hup. simpl in Hup. apply app_inv_head in Hup.
    apply (run_all_ids env _ (embed_record_id env)) in Hall.
    rewrite uuid_calls_record_events in Hall.
    exists tr. rewrite Hup, Hall. split; [done|]. split; [done|]. apply ids_distinct.
  - rewrite process_chunks_batch_loop in Hrun.
    destruct (batch_loop_uploads_nonempty env _ (quiet_chunk_doc env) _ _ _ _ _ _ Hrun)
      as (tr & -> & _).
    destruct (batch_loop_order env _ (quiet_chunk_doc env) _ _ _ _ _ Hrun)
      as (docs & Hall & Hup).
    rewrite uploads_app, concat_app in Hup. simpl in Hup. apply app_inv_head in Hup.
    apply (run_all_ids env _ (chunk_doc_id env)) in Hall.
    rewrite uuid_calls_record_events in Hall.
    exists tr. rewrite Hup, Hall. split; [done|]. split; [done|]. apply ids_distinct.
Qed.

End FreshIdsOfRuns.

Section CsvRuns.
Variable env : Env.
Hypothesis endpoint_answers :
  forall k t, exists v data, embeddings_create env k t = RespOk (v :: data).

Lemma get_embedding_first_answer text max_retries w v data :
  (1 <= max_retries)%Z ->
  embeddings_create env (embed_calls w) text = RespOk (v :: data) ->
  get_embedding env text max_retries w
  = (Ok v, w ++ [EvEmbed (AZURE_OPENAI_DEPLOYMENT env) text]).
Proof.
  intros Hm Hv. unfold get_embedding, range.
  destruct (Z.to_nat max_retries) as [|n] eqn:Hn; [lia|].
  cbn [seq fmap list_fmap]. by eapply attempt_succeeds.
Qed.

(** With an endpoint that answers every call, a record takes one call. *)
Lemma embed_record_one_call raw_doc w doc w' :
  embed_record env raw_doc w = (Ok doc, w') ->
  embed_calls w' = S (embed_calls w).
Proof.
  intros Hrun.
  apply embed_record_step in Hrun as (doc0 & chunk & embedding & w1 & Htr & Hchunk & Hemb & ->).
  destruct raw_doc as [| | | | | |d]; try done.
  destruct (transform_doc_returns _ _ _ _ _ Htr) as [title Hfmt].
  rewrite (transform_doc_run _ _ _ _ Hfmt) in Htr. simplify_eq.
  destruct (endpoint_answers (embed_calls (w ++ [EvUuid (uuid4 env (uuid_calls w))])) chunk)
    as (v & data & Hv).
  erewrite get_embedding_first_answer in Hemb; [|lia|exact Hv].
  simplify_eq. rewrite !embed_calls_app. unfold embed_calls. simpl. lia.
Qed.

Lemma run_all_length {R} (produce : R -> M Doc) items : forall w docs w',
  run_all produce items w = (Ok docs, w') -> length docs = length items.
Proof.
  induction items as [|item rest IH]; intros w docs w' Hrun.
  - unfold run_all, ret in Hrun. by simplify_eq.
  - cbn [run_all] in Hrun. unfold bind at 1 in Hrun.
    destruct (produce item w) as [[doc|e] w1]; [|done].
    unfold bind in Hrun.
    destruct (run_all produce rest w1) as [[docs'|e] w2] eqn:Hrest; [|done].
    unfold ret in Hrun. simplify_eq. simpl. f_equal. by eapply IH.
Qed.

(** The cells of a CSV row are strings or [None]: the f-string writes them
    all. *)
Lemma cells_only_strings kvs : forall d,
  cells_only d ->
  cells_only (foldl (fun d (kv : string * string) => <[KStr (fst kv) := PStr (snd kv)]> d) d kvs).
Proof.
  induction kvs as [|kv kvs IH]; intros d Hd; [done|].
  simpl. apply IH. intros key v.
  destruct (decide (KStr (fst kv) = KStr key)) as [->|Hne].
  - rewrite lookup_insert_eq. intros ?; simplify_eq. left. by eexists.
  - rewrite lookup_insert_ne by done. apply Hd.
Qed.

Lemma cells_only_missing keys : forall d,
  cells_only d ->
  cells_only (foldl (fun d (key : string) => <[KStr key := PNone]> d) d keys).
Proof.
  induction keys as [|k keys IH]; intros d Hd; [done|].
  simpl. apply IH. intros key v.
  destruct (decide (KStr k = KStr key)) as [->|Hne].
  - rewrite lookup_insert_eq. intros ?; simplify_eq. by right.
  - rewrite lookup_insert_ne by done. apply Hd.
Qed.

Lemma row_dict_cells fieldnames row : cells_only (row_dict fieldnames row).
Proof.
  unfold row_dict.
  assert (Hzip : cells_only
                   (foldl (fun d (kv : string * string) => <[KStr (fst kv) := PStr (snd kv)]> d)
                      ∅ (zip fieldnames row)))
    by (apply cells_only_strings; intros key v; by rewrite lookup_empty).
  destruct (length fieldnames <? length row)%nat.
  - intros key v. rewrite lookup_insert_ne by done. apply Hzip.
  - destruct (length row <? length fieldnames)%nat; [|done].
    by apply cells_only_missing.
Qed.

Lemma row_name_written fieldnames row :
  exists title,
    py_format env (dict_get (row_dict fieldnames row) "name" (PStr "")) = Ok title.
Proof.
  unfold dict_get.
  destruct (row_dict fieldnames row !! KStr "name") as [v|] eqn:Hname; [|by eexists].
  destruct (row_dict_cells _ _ _ _ Hname) as [[s ->]| ->]; by eexists.
Qed.

Lemma run_all_one_call_each raw_docs : forall w docs w',
  run_all (embed_record env) raw_docs w = (Ok docs, w') ->
  embed_calls w' = (embed_calls w + length raw_docs)%nat.
Proof.
  induction raw_docs as [|raw_doc rest IH]; intros w docs w' Hrun.
  - unfold run_all, ret in Hrun. simplify_eq. simpl. lia.
  - cbn [run_all] in Hrun. unfold bind at 1 in Hrun.
    destruct (embed_record env raw_doc w) as [[doc|e] w1] eqn:Hdoc; [|done].
    unfold bind in Hrun.
    destruct (run_all (embed_record env) rest w1) as [[docs'|e] w2] eqn:Hrest; [|done].
    unfold ret in Hrun. simplify_eq.
    apply IH in Hrest. apply embed_record_one_call in Hdoc. simpl. lia.
Qed.

(** X15. A [.csv] blob that downloads, decodes and is accepted by the csv
    reader, an endpoint that answers every call and an index that accepts
    every upload: [process_and_upload] completes, whatever the threshold; it
    uploads one document for each row of data and calls the endpoint once for
    each. *)
Theorem process_and_upload_csv_completes (batch_size : Z) (payload : list Byte.byte)
    (text : string) (records : list (list string)) (w : World) :
  endswith (BLOB_FILE env) ".csv" = true ->
  download_blob env (BLOB_CONNECTION_STRING env) (BLOB_CONTAINER env) (BLOB_FILE env)
    = Ok payload ->
  decode_utf8 payload = Ok text ->
  csv_reader text = Ok records ->
  (forall k docs, upload_documents env k docs = None) ->
  exists tr,
    process_and_upload env batch_size w
    = (Ok tt, (w ++ [EvDownload (BLOB_CONTAINER env) (BLOB_FILE env)]) ++ tr)
    /\ length (concat (uploads tr)) = length (data_rows records)
    /\ embed_calls tr = length (data_rows records).
Proof.
  intros Hcsv Hdl Hdec Hrec Hacc.
  assert (Hload : load_docs_from_blob env (BLOB_CONNECTION_STRING env) (BLOB_CONTAINER env)
                    (BLOB_FILE env) w
                  = (Ok (PList (PDict <$> dict_reader records)),
                     w ++ [EvDownload (BLOB_CONTAINER env) (BLOB_FILE env)])).
  { rewrite (load_docs_from_blob_decoded _ _ _ _ _ _ _ Hdl Hdec), Hcsv.
    unfold bind, lift, ret. by rewrite Hrec. }
  rewrite (process_and_upload_loaded _ _ _ _ _ Hload).
  destruct (process_records_completes env batch_size (PDict <$> dict_reader records)
              endpoint_answers Hacc) with (batch := @nil Doc)
              (w := w ++ [EvDownload (BLOB_CONTAINER env) (BLOB_FILE env)]) as [w' Hrun].
  { apply Forall_fmap, Forall_forall. intros d Hd.
    destruct records as [|fieldnames rest]; [by apply elem_of_nil in Hd|].
    apply list_elem_of_fmap in Hd as (row & -> & _).
    destruct (row_name_written fieldnames row) as [title Hfmt].
    by exists (row_dict fieldnames row), title. }
  rewrite Hrun. rewrite process_records_batch_loop in Hrun.
  destruct (batch_loop_uploads_nonempty env _ (quiet_embed_record env) _ _ _ _ _ _ Hrun)
    as (tr & -> & _).
  destruct (batch_loop_order env _ (quiet_embed_record env) _ _ _ _ _ Hrun)
    as (docs & Hall & Hup).
  rewrite uploads_app, concat_app in Hup. simpl in Hup. apply app_inv_head in Hup.
  exists tr. split; [done|].
  pose proof (run_all_length _ _ _ _ _ Hall) as Hlen.
  rewrite length_fmap, dict_reader_length in Hlen.
  split; [by rewrite Hup|].
  apply run_all_one_call_each in Hall.
  rewrite !embed_calls_record_events, embed_calls_app, length_fmap, dict_reader_length in Hall.
  lia.
Qed.

End CsvRuns.

Section ChunkEdges.
Variable env : Env.

(** X18. The document of a PDF chunk: a fresh identifier, an empty
    [parent_id], the [source] of the chunk's metadata as [title], the text of
    the chunk as [chunk], the vector of [get_embedding] for that text, and no
    other field. *)
Theorem chunk_doc_fields (raw_doc : LcDocument) (w : World) (doc : Doc) (w' : World) :
  Reports.chunk_doc env raw_doc w = (Ok doc, w') ->
  exists title embedding,
    metadata raw_doc !! KStr "source" = Some title
    /\ get_embedding env (PStr (page_content raw_doc)) 5
         (w ++ [EvUuid (uuid4 env (uuid_calls w))]) = (Ok embedding, w')
    /\ doc !! KStr "chunk_id" = Some (PStr (uuid4 env (uuid_calls w)))
    /\ doc !! KStr "parent_id" = Some (PStr "")
    /\ doc !! KStr "title" = Some title
    /\ doc !! KStr "chunk" = Some (PStr (page_content raw_doc))
    /\ doc !! KStr "text_vector" = Some embedding
    /\ size doc = 5%nat.
Proof.
  unfold Reports.chunk_doc. unfold bind at 1, new_uuid. unfold bind at 1, subscript.
  destruct (metadata raw_doc !! KStr "source") as [title|]; [|done].
  unfold ret at 1. unfold bind, ret.
  destruct (get_embedding env _ 5 _) as [[embedding|e] w1] eqn:Hemb; [|done].
  intros ?; simplify_eq. exists title, embedding.
  split_and!; try done.
Qed.

(** X19. A chunk whose metadata has no [source] stops the run of
    [load_reports.py] where it stands: the identifier is drawn, then
    [KeyError('source')] is raised; the endpoint is not called for the chunk
    and the documents waiting in the batch are not uploaded. *)
Theorem process_chunks_missing_source (batch_size : Z) (raw_doc : LcDocument)
    (rest : list LcDocument) (batch : list Doc) (w : World) :
  metadata raw_doc !! KStr "source" = None ->
  Reports.process_chunks env batch_size (raw_doc :: rest) batch w =
  (Raise (MkExn KeyError "'source'"), w ++ [EvUuid (uuid4 env (uuid_calls w))]).
Proof.
  intros Hsrc. cbn [Reports.process_chunks].
  unfold bind at 1, Reports.append_chunk, bind at 1, Reports.chunk_doc.
  unfold bind at 1, new_uuid. unfold bind at 1, subscript. by rewrite Hsrc.
Qed.

End ChunkEdges.

Section StringTests.

Lemma string_length_app (s1 s2 : string) :
  String.length (s1 +:+ s2) = (String.length s1 + String.length s2)%nat.
Proof. induction s1 as [|c s1 IH]; simpl; [done|]. by rewrite IH. Qed.

Lemma substring_all (s : string) : substring 0 (String.length s) s = s.
Proof. induction s as [|c s IH]; simpl; [done|]. by rewrite IH. Qed.

Lemma substring_skip (s1 s2 : string) (n : nat) :
  substring (String.length s1) n (s1 +:+ s2) = substring 0 n s2.
Proof. induction s1 as [|c s1 IH]; simpl; [done|]. exact IH. Qed.

Lemma substring_split (s : string) : forall n,
  (n <= String.length s)%nat ->
  s = substring 0 n s +:+ substring n (String.length s - n) s.
Proof.
  induction s as [|c s IH]; intros n Hn.
  - by destruct n.
  - destruct n as [|n]; simpl in *.
    + by rewrite substring_all.
    + change (String c s
              = String c (substring 0 n s +:+ substring n (String.length s - n) s)).
      f_equal. apply IH. lia.
Qed.

Lemma string_app_cons (c : ascii) (s1 s2 : string) :
  String c s1 +:+ s2 = String c (s1 +:+ s2).
Proof. reflexivity. Qed.

Lemma prefix_app (pat : string) : forall s,
  String.prefix pat s = true <-> exists b, s = pat +:+ b.
Proof.
  induction pat as [|a pat IH]; intros s.
  - split; [intros _; by exists s|intros _; by destruct s].
  - destruct s as [|c s]; simpl.
    + split; [done|intros [b Hb]; done].
    + destruct (ascii_dec a c) as [->|Hne].
      * rewrite IH. split; intros [b Hb]; exists b; [by rewrite Hb|].
        rewrite string_app_cons in Hb. by simplify_eq.
      * split; [done|]. intros [b Hb]. rewrite string_app_cons in Hb. by simplify_eq.
Qed.

Lemma string_app_inv_head (p s1 s2 : string) : p +:+ s1 = p +:+ s2 -> s1 = s2.
Proof.
  induction p as [|c p IH]; [done|].
  rewrite !string_app_cons. intros H. apply IH. by simplify_eq.
Qed.

(** [endswith]: a name ends with a suffix exactly when it is some text
    followed by that suffix. *)
Lemma endswith_spec (s suffix : string) :
  endswith s suffix = true <-> exists p, s = p +:+ suffix.
Proof.
  unfold endswith. rewrite andb_true_iff, Nat.leb_le, String.eqb_eq. split.
  - intros [Hlen Hsub].
    exists (substring 0 (String.length s - String.length suffix) s).
    pose proof (substring_split s (String.length s - String.length suffix)
                  ltac:(lia)) as Hsplit.
    replace (String.length s - (String.length s - String.length suffix))%nat
      with (String.length suffix) in Hsplit by lia.
    by rewrite Hsub in Hsplit.
  - intros [p ->]. rewrite string_length_app. split; [lia|].
    replace (String.length p + String.length suffix - String.length suffix)%nat
      with (String.length p) by lia.
    by rewrite substring_skip, substring_all.
Qed.

(** X20. A blob whose name is not some text followed by [.csv], nor some
    text followed by [.json], is still downloaded and decoded, and then
    rejected with [ValueError("Unsupported file format: ...")]: neither
    parser sees it.  The test is on the exact characters, so a name in
    [.CSV] or [.csv.gz] is rejected. *)
Theorem load_docs_from_blob_rejects_other_names (env : Env)
    (conn container name : string) (payload : list Byte.byte) (text : string)
    (w : World) :
  download_blob env conn container name = Ok payload ->
  decode_utf8 payload = Ok text ->
  (forall p, name <> p +:+ ".csv") ->
  (forall p, name <> p +:+ ".json") ->
  load_docs_from_blob env conn container name w
  = (Raise (UnsupportedFormat name), w ++ [EvDownload container name]).
Proof.
  intros Hdl Hdec Hcsv Hjson.
  rewrite (load_docs_from_blob_decoded _ _ _ _ _ _ _ Hdl Hdec).
  destruct (endswith name ".csv") eqn:Ecsv.
  { apply endswith_spec in Ecsv as [p ->]. by destruct (Hcsv p). }
  destruct (endswith name ".json") eqn:Ejson.
  { apply endswith_spec in Ejson as [p ->]. by destruct (Hjson p). }
  reflexivity.
Qed.

Lemma str_contains_app (pat : string) : forall s,
  str_contains pat s = true <-> exists a b, s = a +:+ pat +:+ b.
Proof.
  induction s as [|c s IH].
  - cbn [str_contains]. rewrite orb_false_r, prefix_app. split.
    + intros [b Hb]. by exists "", b.
    + intros (a & b & Hab). destruct a; [by exists b|done].
  - cbn [str_contains]. rewrite orb_true_iff, prefix_app, IH. split.
    + intros [[b Hb]|(a & b & Hab)].
      * by exists "", b.
      * exists (String c a), b. by rewrite string_app_cons, Hab.
    + intros (a & b & Hab). destruct a as [|c' a].
      * left. by exists b.
      * right. exists a, b. rewrite string_app_cons in Hab. by simplify_eq.
Qed.

(** X21. The rate-limit test of [get_embedding]: an error is retried exactly
    when its text holds the characters [429] somewhere in a row, whatever its
    class and whatever else the text says. *)
Theorem is_rate_limit_spec (e : Exn) :
  is_rate_limit e = true <-> exists a b, exn_str e = a +:+ "429" +:+ b.
Proof. apply str_contains_app. Qed.

End StringTests.

(** ** Closed instances *)



Lemma get_embedding_no_attempts_witness :
  (0 <= 0)%Z
  /\ get_embedding (retry_env (flaky_endpoint 0)) (PStr "A. ") 0 [] = (Raise ExhaustedRetries, [])
  /\ get_embedding (retry_env (flaky_endpoint 0)) (PStr "A. ") (-3) [] = (Raise ExhaustedRetries, []).
Proof.
  split; [lia|]. split.
  - apply get_embedding_no_attempts. lia.
  - apply get_embedding_no_attempts. lia.
Defined.



(** A name that the f-string cannot write: the record is refused with a
    [ValueError], after its identifier was drawn. *)
Example transform_doc_huge_name :
  transform_doc three_rows_env (PDict huge_name_record) []
  = (Raise (MkExn ValueError
              "Exceeds the limit (4300 digits) for integer string conversion; use sys.set_int_max_str_digits() to increase the limit"),
     [EvUuid "uuid-0"]).
Proof. vm_compute. reflexivity. Qed.

Lemma load_docs_from_blob_failures_witness :
  download_blob missing_blob_env "UseDevelopmentStorage=true" "products" "products.csv"
    = Raise blob_not_found
  /\ load_docs_from_blob missing_blob_env "UseDevelopmentStorage=true" "products" "products.csv" []
     = (Raise blob_not_found, [] ++ [EvDownload "products" "products.csv"])
  /\ download_blob (mock_env (flaky_endpoint 0) "products.json" [Byte.xff])
       "UseDevelopmentStorage=true" "products" "products.json" = Ok [Byte.xff]
  /\ utf8_valid (Byte.to_N <$> [Byte.xff]) = false
  /\ load_docs_from_blob (mock_env (flaky_endpoint 0) "products.json" [Byte.xff])
       "UseDevelopmentStorage=true" "products" "products.json" []
     = (Raise (MkExn UnicodeDecodeError "'utf-8' codec can't decode byte"),
        [] ++ [EvDownload "products" "products.json"]).
Proof.
  assert (Hdl : download_blob missing_blob_env "UseDevelopmentStorage=true" "products"
                  "products.csv" = Raise blob_not_found) by reflexivity.
  assert (Hdl' : download_blob (mock_env (flaky_endpoint 0) "products.json" [Byte.xff])
                   "UseDevelopmentStorage=true" "products" "products.json" = Ok [Byte.xff])
    by reflexivity.
  assert (Hbad : utf8_valid (Byte.to_N <$> [Byte.xff]) = false) by (vm_compute; reflexivity).
  split_and!; [exact Hdl| |exact Hdl'|exact Hbad|].
  - exact (proj1 (load_docs_from_blob_failures missing_blob_env
                    "UseDevelopmentStorage=true" "products" "products.csv" [])
             blob_not_found Hdl).
  - exact (proj2 (load_docs_from_blob_failures
                    (mock_env (flaky_endpoint 0) "products.json" [Byte.xff])
                    "UseDevelopmentStorage=true" "products" "products.json" [])
             [Byte.xff] Hdl' Hbad).
Defined.

Lemma chunk_ids_fresh_witness :
  process_records three_rows_env 2 (loaded_items three_rows_env) [] []
  = (Ok tt, snd (process_records three_rows_env 2 (loaded_items three_rows_env) [] []))
  /\ Inj (=) (=) (uuid4 three_rows_env)
  /\ exists tr,
       snd (process_records three_rows_env 2 (loaded_items three_rows_env) [] []) = [] ++ tr
       /\ (fun doc : Doc => doc !! KStr "chunk_id") <$> concat (uploads tr)
          = (fun k => Some (PStr (uuid4 three_rows_env k)))
              <$> seq (uuid_calls []) (length (loaded_items three_rows_env))
       /\ NoDup ((fun doc : Doc => doc !! KStr "chunk_id") <$> concat (uploads tr)).
Proof.
  assert (Hrun : process_records three_rows_env 2 (loaded_items three_rows_env) [] []
                 = (Ok tt, snd (process_records three_rows_env 2
                                  (loaded_items three_rows_env) [] [])))
    by (vm_compute; reflexivity).
  assert (Hinj : Inj (=) (=) (uuid4 three_rows_env)).
  { intros a b Hab. apply (inj pretty).
    exact (string_app_inv_head "uuid-" (pretty a) (pretty b) Hab). }
  split; [exact Hrun|]. split; [exact Hinj|].
  destruct (proj1 (chunk_ids_fresh three_rows_env 2 (loaded_items three_rows_env)
                     three_chunks [])
              (snd (process_records three_rows_env 2 (loaded_items three_rows_env) [] []))
              Hrun) as (tr & Htr & Hids & Hnd).
  exists tr. split; [exact Htr|]. split; [exact Hids|exact (Hnd Hinj)].
Defined.

Lemma load_docs_from_blob_rejects_other_names_witness :
  download_blob three_rows_env "UseDevelopmentStorage=true" "products" "products.CSV"
    = Ok (list_byte_of_string three_rows_csv)
  /\ decode_utf8 (list_byte_of_string three_rows_csv) = Ok three_rows_csv
  /\ (forall p, "products.CSV" <> p +:+ ".csv")
  /\ (forall p, "products.CSV" <> p +:+ ".json")
  /\ load_docs_from_blob three_rows_env "UseDevelopmentStorage=true" "products" "products.CSV" []
     = (Raise (UnsupportedFormat "products.CSV"), [] ++ [EvDownload "products" "products.CSV"]).
Proof.
  assert (Hdl : download_blob three_rows_env "UseDevelopmentStorage=true" "products" "products.CSV"
                = Ok (list_byte_of_string three_rows_csv)) by reflexivity.
  assert (Hdec : decode_utf8 (list_byte_of_string three_rows_csv) = Ok three_rows_csv)
    by (vm_compute; reflexivity).
  assert (Hcsv : forall p, "products.CSV" <> p +:+ ".csv").
  { intros p Hp.
    assert (Hends : endswith "products.CSV" ".csv" = true)
      by (apply endswith_spec; by exists p).
    vm_compute in Hends. discriminate Hends. }
  assert (Hjson : forall p, "products.CSV" <> p +:+ ".json").
  { intros p Hp.
    assert (Hends : endswith "products.CSV" ".json" = true)
      by (apply endswith_spec; by exists p).
    vm_compute in Hends. discriminate Hends. }
  split_and!; [exact Hdl|exact Hdec|exact Hcsv|exact Hjson|].
  exact (load_docs_from_blob_rejects_other_names three_rows_env
           "UseDevelopmentStorage=true" "products" "products.CSV"
           (list_byte_of_string three_rows_csv) three_rows_csv [] Hdl Hdec Hcsv Hjson).
Defined.

Lemma load_docs_from_blob_dispatch_witness :
  download_blob three_rows_env "UseDevelopmentStorage=true" "products" "products.csv"
    = Ok (list_byte_of_string three_rows_csv)
  /\ decode_utf8 (list_byte_of_string three_rows_csv) = Ok three_rows_csv
  /\ (exists rows,
        load_docs_from_blob three_rows_env "UseDevelopmentStorage=true" "products" "products.csv" []
          = (Ok (PList (PDict <$> rows)), [EvDownload "products" "products.csv"])
        /\ length rows = 3%nat)
  /\ load_docs_from_blob json_env "UseDevelopmentStorage=true" "products" "products.json" []
       = (Ok (PList [PDict ∅; PDict ∅]), [EvDownload "products" "products.json"])
  /\ load_docs_from_blob three_rows_env "UseDevelopmentStorage=true" "products" "products.xml" []
       = (Raise (UnsupportedFormat "products.xml"), [EvDownload "products" "products.xml"]).
Proof.
  assert (Hdl : download_blob three_rows_env "UseDevelopmentStorage=true" "products" "products.csv"
                = Ok (list_byte_of_string three_rows_csv)) by reflexivity.
  assert (Hdec : decode_utf8 (list_byte_of_string three_rows_csv) = Ok three_rows_csv)
    by (vm_compute; reflexivity).
  split; [exact Hdl|]. split; [exact Hdec|]. split; [|split].
  - destruct (load_docs_from_blob_dispatch three_rows_env
                "UseDevelopmentStorage=true" "products" "products.csv" _ _ [] Hdl Hdec)
      as [Hcsv _].
    destruct (Hcsv eq_refl) as [Hrows _].
    destruct (Hrows [["name"; "parent_id"]; ["A"; "p1"]; ["B"; "p2"]; ["C"; ""]])
      as (rows & Hrun & Hlen); [vm_compute; reflexivity|].
    exists rows. split; [exact Hrun|exact Hlen].
  - assert (Hdec' : decode_utf8 (list_byte_of_string one_array_json) = Ok one_array_json)
      by (vm_compute; reflexivity).
    destruct (load_docs_from_blob_dispatch json_env
                "UseDevelopmentStorage=true" "products" "products.json" _ _ [] eq_refl Hdec')
      as (_ & Hjson & _).
    destruct (Hjson eq_refl eq_refl) as [Hitems _].
    apply Hitems. reflexivity.
  - destruct (load_docs_from_blob_dispatch three_rows_env
                "UseDevelopmentStorage=true" "products" "products.xml" _ _ [] Hdl Hdec)
      as (_ & _ & Hother).
    apply Hother; reflexivity.
Defined.

(** C3 as stated fails: bytes that are not UTF-8 make the function raise
    [UnicodeDecodeError], before the name is looked at: under a name that ends
    in neither suffix the error is not the one of the unsupported format, and
    under a [.csv] name no rows are returned.  Nor are rows returned for a
    [.csv] text with a carriage return inside a line, which the csv reader
    refuses. *)
Lemma load_docs_from_blob_undecodable :
  endswith "notes.txt" ".csv" = false
  /\ endswith "notes.txt" ".json" = false
  /\ load_docs_from_blob (mock_env (flaky_endpoint 0) "notes.txt" [Byte.xff])
       "UseDevelopmentStorage=true" "products" "notes.txt" []
     = (Raise (MkExn UnicodeDecodeError "'utf-8' codec can't decode byte"),
        [EvDownload "products" "notes.txt"])
  /\ endswith "products.csv" ".csv" = true
  /\ load_docs_from_blob (mock_env (flaky_endpoint 0) "products.csv" [Byte.xff])
       "UseDevelopmentStorage=true" "products" "products.csv" []
     = (Raise (MkExn UnicodeDecodeError "'utf-8' codec can't decode byte"),
        [EvDownload "products" "products.csv"])
  /\ exn_class <$> (match fst (load_docs_from_blob
                                 (mock_env (flaky_endpoint 0) "products.csv"
                                    (list_byte_of_string ("name" +:+ String CR "A" +:+ nl)))
                                 "UseDevelopmentStorage=true" "products" "products.csv" []) with
                    | Ok _ => None
                    | Raise e => Some e
                    end) = Some CsvError.
Proof. repeat split; vm_compute; reflexivity. Qed.

(** C5 as stated fails on [parent_id]: the row [A] under the header
    [name,parent_id] is read as a record whose [parent_id] is [None], and
    [transform_doc] gives the document the empty string, not that value; the
    same happens to a [parent_id] that is the number zero. *)
Lemma transform_doc_parent_id_none :
  (match csv_reader short_row_csv with
   | Ok records => dict_reader records
   | Raise _ => []
   end) = [short_row]
  /\ short_row !! KStr "parent_id" = Some PNone
  /\ (match fst (transform_doc three_rows_env (PDict short_row) []) with
      | Ok doc => doc !! KStr "parent_id"
      | Raise _ => None
      end) = Some (PStr "")
  /\ (match fst (transform_doc three_rows_env
                   (PDict (<[KStr "parent_id" := PInt 0]> (<[KStr "name" := PStr "A"]> ∅))) []) with
      | Ok doc => doc !! KStr "parent_id"
      | Raise _ => None
      end) = Some (PStr "").
Proof. repeat split; vm_compute; reflexivity. Qed.

Lemma process_and_upload_batches_witness :
  (1 <= 2)%Z
  /\ load_docs_from_blob five_rows_env (BLOB_CONNECTION_STRING five_rows_env)
       (BLOB_CONTAINER five_rows_env) (BLOB_FILE five_rows_env) []
     = (Ok (PList (loaded_items five_rows_env)), [EvDownload "products" "products.csv"])
  /\ length (loaded_items five_rows_env) = 5%nat
  /\ process_and_upload five_rows_env 2 [] = (Ok tt, snd (process_and_upload five_rows_env 2 []))
  /\ length <$> uploads (snd (process_and_upload five_rows_env 2 [])) = [2; 2; 1]%nat.
Proof.
  assert (HB : (1 <= 2)%Z) by lia.
  assert (Hload : load_docs_from_blob five_rows_env (BLOB_CONNECTION_STRING five_rows_env)
                    (BLOB_CONTAINER five_rows_env) (BLOB_FILE five_rows_env) []
                  = (Ok (PList (loaded_items five_rows_env)),
                     [EvDownload "products" "products.csv"])) by (vm_compute; reflexivity).
  assert (Hlen : length (loaded_items five_rows_env) = 5%nat) by (vm_compute; reflexivity).
  assert (Hrun : process_and_upload five_rows_env 2 [] =
                 (Ok tt, snd (process_and_upload five_rows_env 2 [])))
    by (vm_compute; reflexivity).
  split; [exact HB|]. split; [exact Hload|]. split; [exact Hlen|]. split; [exact Hrun|].
  pose proof (process_and_upload_batches five_rows_env 2 (loaded_items five_rows_env) []
                [EvDownload "products" "products.csv"] HB Hload) as [Hthm _].
  destruct (Hthm _ Hrun) as (tr & Htr & Hsizes & _).
  rewrite Htr, uploads_app, fmap_app, Hsizes, Hlen. reflexivity.
Defined.

Lemma process_and_upload_order_witness :
  load_docs_from_blob three_rows_env (BLOB_CONNECTION_STRING three_rows_env)
    (BLOB_CONTAINER three_rows_env) (BLOB_FILE three_rows_env) []
  = (Ok (PList (loaded_items three_rows_env)), [EvDownload "products" "products.csv"])
  /\ process_and_upload three_rows_env 2 [] = (Ok tt, snd (process_and_upload three_rows_env 2 []))
  /\ exists steps w_last fl tr,
       record_steps three_rows_env [EvDownload "products" "products.csv"]
         (loaded_items three_rows_env) steps w_last
       /\ snd (process_and_upload three_rows_env 2 []) = w_last ++ fl
       /\ flush_events fl
       /\ snd (process_and_upload three_rows_env 2 []) = [EvDownload "products" "products.csv"] ++ tr
       /\ concat (uploads tr) = attach <$> steps
       /\ length steps = length (loaded_items three_rows_env).
Proof.
  assert (Hload : load_docs_from_blob three_rows_env (BLOB_CONNECTION_STRING three_rows_env)
                    (BLOB_CONTAINER three_rows_env) (BLOB_FILE three_rows_env) []
                  = (Ok (PList (loaded_items three_rows_env)),
                     [EvDownload "products" "products.csv"])) by (vm_compute; reflexivity).
  assert (Hrun : process_and_upload three_rows_env 2 [] =
                 (Ok tt, snd (process_and_upload three_rows_env 2 [])))
    by (vm_compute; reflexivity).
  split; [exact Hload|]. split; [exact Hrun|].
  exact (process_and_upload_order three_rows_env 2 (loaded_items three_rows_env) []
           [EvDownload "products" "products.csv"]
           (snd (process_and_upload three_rows_env 2 [])) Hload Hrun).
Defined.

Lemma uploaded_documents_frame_witness :
  load_docs_from_blob three_rows_env (BLOB_CONNECTION_STRING three_rows_env)
    (BLOB_CONTAINER three_rows_env) (BLOB_FILE three_rows_env) []
  = (Ok (PList (loaded_items three_rows_env)), [EvDownload "products" "products.csv"])
  /\ process_and_upload three_rows_env 2 [] = (Ok tt, snd (process_and_upload three_rows_env 2 []))
  /\ exists steps w_last fl tr,
       record_steps three_rows_env [EvDownload "products" "products.csv"]
         (loaded_items three_rows_env) steps w_last
       /\ snd (process_and_upload three_rows_env 2 []) = w_last ++ fl
       /\ flush_events fl
       /\ snd (process_and_upload three_rows_env 2 []) = [EvDownload "products" "products.csv"] ++ tr
       /\ Forall2 vector_attached steps (concat (uploads tr))
       /\ Forall2 (fun step doc' =>
                     doc' !! KStr "chunk_id" = fst step !! KStr "chunk_id"
                     /\ doc' !! KStr "parent_id" = fst step !! KStr "parent_id"
                     /\ doc' !! KStr "main_category" = fst step !! KStr "main_category"
                     /\ doc' !! KStr "sub_category" = fst step !! KStr "sub_category"
                     /\ doc' !! KStr "chunk" = fst step !! KStr "chunk")
            steps (concat (uploads tr)).
Proof.
  assert (Hload : load_docs_from_blob three_rows_env (BLOB_CONNECTION_STRING three_rows_env)
                    (BLOB_CONTAINER three_rows_env) (BLOB_FILE three_rows_env) []
                  = (Ok (PList (loaded_items three_rows_env)),
                     [EvDownload "products" "products.csv"])) by (vm_compute; reflexivity).
  assert (Hrun : process_and_upload three_rows_env 2 [] =
                 (Ok tt, snd (process_and_upload three_rows_env 2 [])))
    by (vm_compute; reflexivity).
  split; [exact Hload|]. split; [exact Hrun|].
  exact (uploaded_documents_frame three_rows_env 2 (loaded_items three_rows_env) []
           [EvDownload "products" "products.csv"]
           (snd (process_and_upload three_rows_env 2 [])) Hload Hrun).
Defined.

Lemma batch_size_invariant_witness :
  (1 <= 2)%Z
  /\ (forall n,
        let st := fst (Nat.iter n (driver_step three_rows_env 2)
                         (AtRecord (loaded_items three_rows_env) [], [])) in
        (Z.of_nat (length (batch_of st)) <= 2)%Z
        /\ (at_record st = true -> (Z.of_nat (length (batch_of st)) < 2)%Z))
  /\ length (batch_of (fst (Nat.iter 3 (driver_step three_rows_env 2)
                              (AtRecord (loaded_items three_rows_env) [], [])))) = 2%nat
  /\ length (batch_of (fst (Nat.iter 4 (driver_step three_rows_env 2)
                              (AtRecord (loaded_items three_rows_env) [], [])))) = 0%nat.
Proof.
  assert (HB : (1 <= 2)%Z) by lia.
  split; [exact HB|].
  destruct (batch_size_invariant three_rows_env 2 (loaded_items three_rows_env) [] HB)
    as [Hinv _].
  split; [exact Hinv|]. split; vm_compute; reflexivity.
Defined.

(** C7 as stated fails for a threshold of zero: before the first record the
    batch is empty, which is not fewer than zero documents, and after the
    first [append] it holds one document, more than the threshold. *)
Lemma batch_exceeds_zero_threshold :
  at_record (fst (Nat.iter 0 (driver_step three_rows_env 0) (AtRecord [PDict short_row] [], [])))
    = true
  /\ (Z.of_nat (length (batch_of (fst (Nat.iter 0 (driver_step three_rows_env 0)
                                         (AtRecord [PDict short_row] [], []))))) <? 0)%Z = false
  /\ Z.of_nat (length (batch_of (fst (Nat.iter 1 (driver_step three_rows_env 0)
                                        (AtRecord [PDict short_row] [], []))))) = 1%Z
  /\ (1 <=? 0)%Z = false.
Proof. repeat split; vm_compute; reflexivity. Qed.

(** The end-to-end example: three rows give three documents, in order, with
    the chunks [A. ], [B. ] and [C. ], each with the vector of the endpoint;
    with a threshold of two they go in two uploads. *)
Example three_rows_end_to_end :
  fst (process_and_upload three_rows_env 2 []) = Ok tt
  /\ (fun doc : Doc => doc !! KStr "chunk")
       <$> concat (uploads (snd (process_and_upload three_rows_env 2 [])))
     = [Some (PStr "A. "); Some (PStr "B. "); Some (PStr "C. ")]
  /\ (fun doc : Doc => doc !! KStr "parent_id")
       <$> concat (uploads (snd (process_and_upload three_rows_env 2 [])))
     = [Some (PStr "p1"); Some (PStr "p2"); Some (PStr "")]
  /\ (fun doc : Doc => doc !! KStr "text_vector")
       <$> concat (uploads (snd (process_and_upload three_rows_env 2 [])))
     = [Some sample_vector; Some sample_vector; Some sample_vector]
  /\ length <$> uploads (snd (process_and_upload three_rows_env 2 [])) = [2; 1]%nat
  /\ sleeps Backoff (snd (process_and_upload three_rows_env 2 [])) = [1%Z]
  /\ sleeps BatchPause (snd (process_and_upload three_rows_env 2 [])) = [1%Z].
Proof. repeat split; vm_compute; reflexivity. Qed.

(** The numbers of the batch example: 250 documents in batches of 100. *)
Example batch_sizes_250_100 : batch_sizes 100 250 = [100; 100; 50]%nat.
Proof. reflexivity. Qed.

Lemma get_embedding_empty_data_witness :
  (1 <= 5)%Z
  /\ embeddings_create (retry_env empty_data_endpoint) (embed_calls []) (PStr "A. ") = RespOk []
  /\ get_embedding (retry_env empty_data_endpoint) (PStr "A. ") 5 [] =
     (Raise (MkExn IndexError "list index out of range"),
      [EvEmbed "text-embedding-3-small" (PStr "A. ")]).
Proof.
  assert (H5 : (1 <= 5)%Z) by lia.
  split; [exact H5|]. split; [reflexivity|].
  exact (get_embedding_empty_data (retry_env empty_data_endpoint) (PStr "A. ") 5 [] H5 eq_refl).
Defined.

Lemma load_docs_from_blob_json_value_witness :
  download_blob json_number_env "UseDevelopmentStorage=true" "products" "products.json"
    = Ok (list_byte_of_string "5")
  /\ decode_utf8 (list_byte_of_string "5") = Ok "5"
  /\ endswith "products.json" ".csv" = false
  /\ endswith "products.json" ".json" = true
  /\ json_loads json_number_env "5" = Ok (PInt 5)
  /\ load_docs_from_blob json_number_env "UseDevelopmentStorage=true" "products" "products.json" []
     = (Raise (MkExn TypeError "object of type 'int' has no len()"),
        [EvDownload "products" "products.json"]).
Proof.
  assert (Hdec : decode_utf8 (list_byte_of_string "5") = Ok "5") by (vm_compute; reflexivity).
  assert (Hcsv : endswith "products.json" ".csv" = false) by (vm_compute; reflexivity).
  assert (Hjson : endswith "products.json" ".json" = true) by (vm_compute; reflexivity).
  split; [reflexivity|]. split; [exact Hdec|]. split; [exact Hcsv|]. split; [exact Hjson|].
  split; [reflexivity|].
  exact (load_docs_from_blob_json_value json_number_env
           "UseDevelopmentStorage=true" "products" "products.json"
           (list_byte_of_string "5") "5" (PInt 5) [] eq_refl Hdec Hcsv Hjson eq_refl).
Defined.

Lemma process_and_upload_iterates_witness :
  load_docs_from_blob three_rows_env (BLOB_CONNECTION_STRING three_rows_env)
    (BLOB_CONTAINER three_rows_env) (BLOB_FILE three_rows_env) []
  = (Ok (PList (loaded_items three_rows_env)), [EvDownload "products" "products.csv"])
  /\ exists items,
       py_iter (PList (loaded_items three_rows_env)) = Ok items
       /\ py_len (PList (loaded_items three_rows_env)) = Ok (length items)
       /\ process_and_upload three_rows_env 2 []
          = process_records three_rows_env 2 items [] [EvDownload "products" "products.csv"].
Proof.
  assert (Hload : load_docs_from_blob three_rows_env (BLOB_CONNECTION_STRING three_rows_env)
                    (BLOB_CONTAINER three_rows_env) (BLOB_FILE three_rows_env) []
                  = (Ok (PList (loaded_items three_rows_env)),
                     [EvDownload "products" "products.csv"])) by (vm_compute; reflexivity).
  split; [exact Hload|].
  exact (process_and_upload_iterates three_rows_env 2 (PList (loaded_items three_rows_env)) []
           [EvDownload "products" "products.csv"] Hload).
Defined.

Lemma transform_doc_string_parent_id_witness :
  (<[KStr "parent_id" := PStr ""]> (<[KStr "name" := PStr "C"]> (∅ : PyDict)))
    !! KStr "parent_id" = Some (PStr "")
  /\ py_format three_rows_env
       (dict_get (<[KStr "parent_id" := PStr ""]> (<[KStr "name" := PStr "C"]> ∅))
          "name" (PStr "")) = Ok "C"
  /\ exists doc,
       transform_doc three_rows_env
         (PDict (<[KStr "parent_id" := PStr ""]> (<[KStr "name" := PStr "C"]> ∅))) []
       = (Ok doc, [] ++ [EvUuid (uuid4 three_rows_env (uuid_calls []))])
       /\ doc !! KStr "parent_id" = Some (PStr "").
Proof.
  split; [reflexivity|]. split; [reflexivity|].
  exact (proj2 (transform_doc_string_parent_id three_rows_env
                  (<[KStr "parent_id" := PStr ""]> (<[KStr "name" := PStr "C"]> ∅)) "" []
                  eq_refl) "C" eq_refl).
Defined.

Lemma process_records_not_a_dict_witness :
  is_dict (PInt 7) = false
  /\ process_records three_rows_env 2 [PInt 7; PDict short_row] [short_row] [] =
     (Raise (MkExn AttributeError "'int' object has no attribute 'get'"), [EvUuid "uuid-0"]).
Proof.
  split; [reflexivity|].
  exact (process_records_not_a_dict three_rows_env 2 (PInt 7) [PDict short_row]
           [short_row] [] eq_refl).
Defined.

Lemma upload_size_bounds_witness :
  (1 <= 2)%Z
  /\ (exists tr,
         snd (process_records three_rows_env 2 three_records_then_number [] []) = [] ++ tr
         /\ Forall (fun docs => (0 < length docs <= Z.to_nat 2)%nat) (uploads tr))
  /\ length <$> uploads (snd (process_records three_rows_env 2 three_records_then_number [] []))
     = [2%nat].
Proof.
  assert (HB : (1 <= 2)%Z) by lia.
  split; [exact HB|]. split; [|vm_compute; reflexivity].
  exact (proj1 (upload_size_bounds three_rows_env 2 three_records_then_number three_chunks [] HB)).
Defined.

Lemma abort_loses_partial_batch_witness :
  (1 <= 2)%Z
  /\ (forall k docs, upload_documents three_rows_env k docs = None)
  /\ process_records three_rows_env 2 three_records_then_number [] []
     = (Raise (MkExn AttributeError "'int' object has no attribute 'get'"),
        snd (process_records three_rows_env 2 three_records_then_number [] []))
  /\ (exists tr,
         snd (process_records three_rows_env 2 three_records_then_number [] []) = [] ++ tr
         /\ Forall (fun docs => length docs = Z.to_nat 2) (uploads tr))
  /\ embed_calls (snd (process_records three_rows_env 2 three_records_then_number [] [])) = 4%nat
  /\ length (concat (uploads (snd (process_records three_rows_env 2
                                     three_records_then_number [] [])))) = 2%nat.
Proof.
  assert (HB : (1 <= 2)%Z) by lia.
  assert (Hacc : forall k docs, upload_documents three_rows_env k docs = None)
    by (intros; reflexivity).
  assert (Hrun : process_records three_rows_env 2 three_records_then_number [] []
                 = (Raise (MkExn AttributeError "'int' object has no attribute 'get'"),
                    snd (process_records three_rows_env 2 three_records_then_number [] [])))
    by (vm_compute; reflexivity).
  split; [exact HB|]. split; [exact Hacc|]. split; [exact Hrun|].
  split; [|split; vm_compute; reflexivity].
  exact (proj1 (abort_loses_partial_batch three_rows_env 2 three_records_then_number
                  three_chunks [] HB Hacc) _ _ Hrun).
Defined.

Lemma nonpositive_batch_size_witness :
  (0 <= 0)%Z
  /\ process_records three_rows_env 0 (loaded_items three_rows_env) [] []
     = (Ok tt, snd (process_records three_rows_env 0 (loaded_items three_rows_env) [] []))
  /\ length (loaded_items three_rows_env) = 3%nat
  /\ exists tr,
       snd (process_records three_rows_env 0 (loaded_items three_rows_env) [] []) = [] ++ tr
       /\ length <$> uploads tr = replicate (length (loaded_items three_rows_env)) 1%nat
       /\ sleeps BatchPause tr = replicate (length (loaded_items three_rows_env)) 1%Z.
Proof.
  assert (HB : (0 <= 0)%Z) by lia.
  assert (Hrun : process_records three_rows_env 0 (loaded_items three_rows_env) [] []
                 = (Ok tt, snd (process_records three_rows_env 0
                                  (loaded_items three_rows_env) [] [])))
    by (vm_compute; reflexivity).
  split; [exact HB|]. split; [exact Hrun|]. split; [vm_compute; reflexivity|].
  exact (proj1 (nonpositive_batch_size three_rows_env 0 (loaded_items three_rows_env)
                  three_chunks [] HB) _ Hrun).
Defined.

Lemma batch_pauses_witness :
  (1 <= 2)%Z
  /\ Reports.process_chunks reports_env 2 three_chunks [] []
     = (Ok tt, snd (Reports.process_chunks reports_env 2 three_chunks [] []))
  /\ (exists tr,
         snd (Reports.process_chunks reports_env 2 three_chunks [] []) = [] ++ tr
         /\ sleeps BatchPause tr = replicate (length three_chunks / Z.to_nat 2) 1%Z)
  /\ sleeps BatchPause (snd (Reports.process_chunks reports_env 2 three_chunks [] [])) = [1%Z].
Proof.
  assert (HB : (1 <= 2)%Z) by lia.
  assert (Hrun : Reports.process_chunks reports_env 2 three_chunks [] []
                 = (Ok tt, snd (Reports.process_chunks reports_env 2 three_chunks [] [])))
    by (vm_compute; reflexivity).
  split; [exact HB|]. split; [exact Hrun|]. split; [|vm_compute; reflexivity].
  exact (proj2 (batch_pauses reports_env 2 (loaded_items three_rows_env) three_chunks [] HB)
           _ Hrun).
Defined.

Lemma process_and_upload_csv_completes_witness :
  (forall k t, exists v data, embeddings_create five_rows_env k t = RespOk (v :: data))
  /\ endswith (BLOB_FILE five_rows_env) ".csv" = true
  /\ (forall k docs, upload_documents five_rows_env k docs = None)
  /\ exists payload text records,
       download_blob five_rows_env (BLOB_CONNECTION_STRING five_rows_env)
         (BLOB_CONTAINER five_rows_env) (BLOB_FILE five_rows_env) = Ok payload
       /\ decode_utf8 payload = Ok text
       /\ csv_reader text = Ok records
       /\ length (data_rows records) = 5%nat
       /\ exists tr,
            process_and_upload five_rows_env 2 []
            = (Ok tt, ([] ++ [EvDownload (BLOB_CONTAINER five_rows_env)
                                (BLOB_FILE five_rows_env)]) ++ tr)
            /\ length (concat (uploads tr)) = length (data_rows records)
            /\ embed_calls tr = length (data_rows records).
Proof.
  assert (Hans : forall k t, exists v data,
               embeddings_create five_rows_env k t = RespOk (v :: data))
    by (intros k t; exists sample_vector, []; reflexivity).
  assert (Hcsv : endswith (BLOB_FILE five_rows_env) ".csv" = true) by (vm_compute; reflexivity).
  assert (Hacc : forall k docs, upload_documents five_rows_env k docs = None)
    by (intros; reflexivity).
  split; [exact Hans|]. split; [exact Hcsv|]. split; [exact Hacc|].
  exists (list_byte_of_string ("name,parent_id" +:+ nl +:+ csv_rows 5)),
    ("name,parent_id" +:+ nl +:+ csv_rows 5),
    [["name"; "parent_id"]; ["A"; "p1"]; ["A"; "p1"]; ["A"; "p1"]; ["A"; "p1"]; ["A"; "p1"]].
  assert (Hdec : decode_utf8 (list_byte_of_string ("name,parent_id" +:+ nl +:+ csv_rows 5))
                 = Ok ("name,parent_id" +:+ nl +:+ csv_rows 5)) by (vm_compute; reflexivity).
  assert (Hrec : csv_reader ("name,parent_id" +:+ nl +:+ csv_rows 5)
                 = Ok [["name"; "parent_id"]; ["A"; "p1"]; ["A"; "p1"]; ["A"; "p1"];
                       ["A"; "p1"]; ["A"; "p1"]]) by (vm_compute; reflexivity).
  split; [reflexivity|]. split; [exact Hdec|]. split; [exact Hrec|]. split; [reflexivity|].
  exact (process_and_upload_csv_completes five_rows_env Hans 2 _ _ _ [] Hcsv eq_refl Hdec Hrec Hacc).
Defined.

Lemma chunk_doc_fields_witness :
  Reports.chunk_doc reports_env (report_chunk "one") []
  = (Ok (fst_doc (Reports.chunk_doc reports_env (report_chunk "one") [])),
     snd (Reports.chunk_doc reports_env (report_chunk "one") []))
  /\ fst_doc (Reports.chunk_doc reports_env (report_chunk "one") []) !! KStr "title"
     = Some (PStr Reports.REPORT_URL)
  /\ exists title embedding,
       metadata (report_chunk "one") !! KStr "source" = Some title
       /\ get_embedding reports_env (PStr (page_content (report_chunk "one"))) 5
            ([] ++ [EvUuid (uuid4 reports_env (uuid_calls []))])
          = (Ok embedding, snd (Reports.chunk_doc reports_env (report_chunk "one") []))
       /\ fst_doc (Reports.chunk_doc reports_env (report_chunk "one") []) !! KStr "chunk_id"
          = Some (PStr (uuid4 reports_env (uuid_calls [])))
       /\ fst_doc (Reports.chunk_doc reports_env (report_chunk "one") []) !! KStr "parent_id"
          = Some (PStr "")
       /\ fst_doc (Reports.chunk_doc reports_env (report_chunk "one") []) !! KStr "title"
          = Some title
       /\ fst_doc (Reports.chunk_doc reports_env (report_chunk "one") []) !! KStr "chunk"
          = Some (PStr (page_content (report_chunk "one")))
       /\ fst_doc (Reports.chunk_doc reports_env (report_chunk "one") []) !! KStr "text_vector"
          = Some embedding
       /\ size (fst_doc (Reports.chunk_doc reports_env (report_chunk "one") [])) = 5%nat.
Proof.
  assert (Hrun : Reports.chunk_doc reports_env (report_chunk "one") []
                 = (Ok (fst_doc (Reports.chunk_doc reports_env (report_chunk "one") [])),
                    snd (Reports.chunk_doc reports_env (report_chunk "one") [])))
    by (vm_compute; reflexivity).
  split; [exact Hrun|]. split; [vm_compute; reflexivity|].
  exact (chunk_doc_fields reports_env (report_chunk "one") [] _ _ Hrun).
Defined.

Lemma process_chunks_missing_source_witness :
  metadata chunk_without_source !! KStr "source" = None
  /\ Reports.process_chunks reports_env 2 [chunk_without_source; report_chunk "two"] [] [] =
     (Raise (MkExn KeyError "'source'"), [] ++ [EvUuid (uuid4 reports_env (uuid_calls []))]).
Proof.
  split; [reflexivity|].
  exact (process_chunks_missing_source reports_env 2 chunk_without_source
           [report_chunk "two"] [] [] eq_refl).
Defined.

Lemma reports_process_and_upload_batches_witness :
  (1 <= 2)%Z
  /\ pdf_chunks reports_env Reports.REPORT_URL = Ok three_chunks
  /\ Reports.process_and_upload reports_env 2 []
     = (Ok tt, snd (Reports.process_and_upload reports_env 2 []))
  /\ length <$> uploads (snd (Reports.process_and_upload reports_env 2 [])) = [2; 1]%nat.
Proof.
  assert (HB : (1 <= 2)%Z) by lia.
  assert (Hpdf : pdf_chunks reports_env Reports.REPORT_URL = Ok three_chunks) by reflexivity.
  assert (Hrun : Reports.process_and_upload reports_env 2 []
                 = (Ok tt, snd (Reports.process_and_upload reports_env 2 [])))
    by (vm_compute; reflexivity).
  split; [exact HB|]. split; [exact Hpdf|]. split; [exact Hrun|].
  destruct (reports_process_and_upload_batches reports_env 2 three_chunks []
              (snd (Reports.process_and_upload reports_env 2 [])) HB Hpdf Hrun)
    as (tr & Htr & Hsizes & _).
  rewrite Htr, uploads_app, fmap_app, Hsizes. reflexivity.
Defined.


(** The chunks of the report example go up in order, two then one. *)
Example three_chunks_end_to_end :
  (fun doc : Doc => doc !! KStr "chunk")
    <$> concat (uploads (snd (Reports.process_and_upload reports_env 2 [])))
  = [Some (PStr "one"); Some (PStr "two"); Some (PStr "three")]
  /\ length <$> uploads (snd (Reports.process_and_upload reports_env 2 [])) = [2; 1]%nat.
Proof. split; vm_compute; reflexivity. Qed.
